(** * Blogicum: visibility and authorisation rules of [blog/views.py]

    A shallow embedding of the class-based views of the blog application.
    The relational store is a record of tables, a view is a function in a
    small state-and-exception monad over that store, and Python's
    cooperative [super().dispatch(...)] chain is written out by passing
    the rest of the method-resolution order as a continuation. *)

From Stdlib Require Import List String ZArith Bool Arith Lia.
From Stdlib Require Import Sorting.Sorted.
Import ListNotations.

Local Open Scope string_scope.
Local Open Scope Z_scope.
Local Open Scope nat_scope.

(* ================================================================== *)
(** ** Data model *)

(** Modelled from the spec: [blog/models.py] is not part of the sources.
    The fields follow section 3 of the specification: a post has a
    required author and an optional category and location, a comment
    has a required author and a required parent post.  Foreign keys are
    stored as primary-key values, as the relational store has them;
    timestamps are integers. *)
Module Models.

Record User := mkUser
  { user_pk : nat;
    username : string }.

Record Category := mkCategory
  { category_pk : nat;
    category_title : string;
    slug : string;
    category_is_published : bool }.

Record Location := mkLocation
  { location_pk : nat;
    location_name : string;
    location_is_published : bool }.

Record Post := mkPost
  { post_pk : nat;
    title : string;
    text : string;
    pub_date : Z;
    is_published : bool;
    author_id : nat;
    category_id : option nat;
    location_id : option nat }.

Record Comment := mkComment
  { comment_pk : nat;
    comment_text : string;
    created_at : Z;
    comment_author_id : nat;
    comment_post_id : nat }.

(** The tables, in storage order.  Primary keys, usernames and slugs
    are unique columns, so a lookup by one of them sees at most one
    row; [find] returns it. *)
Record DB := mkDB
  { users : list User;
    categories : list Category;
    locations : list Location;
    posts : list Post;
    comments : list Comment }.

(** [post.category]: the related row, [None] when the column is null. *)
Definition post_category (db : DB) (p : Post) : option Category :=
  match category_id p with
  | None => None
  | Some k => find (fun c => category_pk c =? k) (categories db)
  end.

(** [post.author]: the related row. *)
Definition post_author (db : DB) (p : Post) : option User :=
  find (fun u => user_pk u =? author_id p) (users db).

(** [post.comments]: the reverse relation of [Comment.post]. *)
Definition post_comments (db : DB) (p : Post) : list Comment :=
  filter (fun c => comment_post_id c =? post_pk p) (comments db).

(** What [IsAuthorMixin] needs of the object it guards: [obj.pk] and
    [obj.author.pk].  Both models provide them. *)
Class Authored (A : Type) :=
  { pk : A -> nat;
    author_pk : A -> nat }.

#[export] Instance Post_Authored : Authored Post :=
  {| pk := post_pk; author_pk := author_id |}.

#[export] Instance Comment_Authored : Authored Comment :=
  {| pk := comment_pk; author_pk := comment_author_id |}.

End Models.
Export Models.

(* ================================================================== *)
(** ** Requests, responses and the view monad *)

Inductive RequestUser :=
| AnonymousUser
| AuthUser (u : User).

Definition is_authenticated (ru : RequestUser) : bool :=
  match ru with AuthUser _ => true | AnonymousUser => false end.

(** [request.user.pk]: [None] for the anonymous user. *)
Definition request_user_pk (ru : RequestUser) : option nat :=
  match ru with AuthUser u => Some (user_pk u) | AnonymousUser => None end.

(** [request.user.username]: the empty string for the anonymous user. *)
Definition request_user_username (ru : RequestUser) : string :=
  match ru with AuthUser u => username u | AnonymousUser => "" end.

(** Python's [==] on two primary keys, either of which may be [None]. *)
Definition pk_eqb (a b : option nat) : bool :=
  match a, b with
  | Some x, Some y => x =? y
  | None, None => true
  | _, _ => false
  end.

(** The request methods of the model: GET and POST, the two the routes of
    the application are used with, and PATCH, which none of the views
    handles.  HEAD, OPTIONS, PUT, DELETE and TRACE are not modelled, and
    no statement below is about them. *)
Inductive Method := GET | POST | PATCH.

(** The [page] query parameter as [paginate_queryset] reads it. *)
Inductive PageArg :=
| page_absent
| page_number (n : Z)
| page_last
| page_garbage.

Record HttpRequest := mkRequest
  { method : Method;
    user : RequestUser;
    path : string;
    page : PageArg }.

(** Named routes, as [reverse] resolves them. *)
Inductive URL :=
| url_post_detail (post_id : nat)
| url_profile (name : string)
| url_login (next : string).

(** Submitted form data.  Modelled from the spec: [blog/forms.py] is not
    part of the sources; the forms edit the fields of section 3 other
    than the keys, the author and the creation timestamp. *)
Record PostFormData := mkPostFormData
  { pf_title : string;
    pf_text : string;
    pf_pub_date : Z;
    pf_is_published : bool;
    pf_category : option nat;
    pf_location : option nat }.

Record CommentFormData := mkCommentFormData
  { cf_text : string }.

Inductive Context :=
| DetailContext (post : Post) (post_comments : list Comment)
| ListContext (page_obj : list (Post * nat))
              (category : option Category) (profile : option User)
| PostFormContext (object : Post) (bound : option PostFormData)
| CommentFormContext (object : option Comment) (bound : option CommentFormData).

Inductive Response :=
| TemplateResponse (template_name : string) (context : Context)
| HttpResponseRedirect (url : URL)
| HttpResponseNotAllowed.

Inductive Exception :=
| Http404
| PermissionDenied
| AttributeError
| ValueError.

(** A view runs against the store and either raises or answers; the
    store is threaded through in both cases. *)
Definition View (A : Type) : Type := DB -> (Exception + A) * DB.

Definition ret {A} (a : A) : View A := fun db => (inr a, db).

Definition raise {A} (e : Exception) : View A := fun db => (inl e, db).

Definition bind {A B} (m : View A) (k : A -> View B) : View B :=
  fun db =>
    match m db with
    | (inl e, db') => (inl e, db')
    | (inr a, db') => k a db'
    end.

Definition query {A} (f : DB -> A) : View A := fun db => (inr (f db), db).

Definition execute (f : DB -> DB) : View unit := fun db => (inr tt, f db).

Declare Scope view_scope.
Delimit Scope view_scope with view.
Notation "x <- m ;; k" := (bind m (fun x => k))
  (at level 100, m at next level, right associativity) : view_scope.
Notation "m ;;; k" := (bind m (fun _ => k))
  (at level 100, right associativity) : view_scope.
Local Open Scope view_scope.

(* ================================================================== *)
(** ** The framework pieces the views are built from *)

Module Django.

(** [get_object_or_404(queryset, **lookup)] and
    [SingleObjectMixin.get_object]. *)
Definition get_object_or_404 {A} (table : DB -> list A) (lookup : A -> bool)
  : View A :=
  row <- query (fun db => find lookup (table db)) ;;
  match row with
  | Some a => ret a
  | None => raise Http404
  end.

(** [AccessMixin.raise_exception], left at its default. *)
Definition raise_exception : bool := false.

Definition handle_no_permission (request : HttpRequest) : View Response :=
  if raise_exception || is_authenticated (user request)
  then raise PermissionDenied
  else ret (HttpResponseRedirect (url_login (path request))).

Definition LoginRequiredMixin_dispatch (request : HttpRequest)
    (super_dispatch : View Response) : View Response :=
  if negb (is_authenticated (user request))
  then handle_no_permission request
  else super_dispatch.

(** [View.dispatch]: route on the HTTP method to the handler the class
    defines, or answer 405. *)
Definition View_dispatch (request : HttpRequest)
    (get post : option (View Response)) : View Response :=
  let handler :=
    match method request with
    | GET => get
    | POST => post
    | PATCH => None
    end in
  match handler with
  | Some h => h
  | None => ret HttpResponseNotAllowed
  end.

(** [Paginator]: [orphans = 0], [allow_empty_first_page = True]. *)
Definition allow_empty_first_page : bool := true.

Definition num_pages {A} (object_list : list A) (per_page : nat) : nat :=
  let hits := Nat.max 1 (List.length object_list) in
  (hits + per_page - 1) / per_page.

Definition slice {A} (l : list A) (bottom top : nat) : list A :=
  firstn (top - bottom) (skipn bottom l).

Definition validate_number {A} (object_list : list A) (per_page : nat)
    (number : Z) : View nat :=
  if (number <? 1)%Z then raise Http404
  else if (Z.of_nat (num_pages object_list per_page) <? number)%Z
       then if (number =? 1)%Z && allow_empty_first_page
            then ret (Z.to_nat number)
            else raise Http404
       else ret (Z.to_nat number).

Definition Paginator_page {A} (object_list : list A) (per_page : nat)
    (number : Z) : View (list A) :=
  n <- validate_number object_list per_page number ;;
  let bottom := (n - 1) * per_page in
  let top := bottom + per_page in
  let top := if List.length object_list <=? top then List.length object_list else top in
  ret (slice object_list bottom top).

(** [MultipleObjectMixin.paginate_queryset]. *)
Definition paginate_queryset {A} (queryset : list A) (page_size : nat)
    (request : HttpRequest) : View (list A) :=
  match page request with
  | page_absent => Paginator_page queryset page_size 1%Z
  | page_number n => Paginator_page queryset page_size n
  | page_last =>
      Paginator_page queryset page_size
        (Z.of_nat (num_pages queryset page_size))
  | page_garbage => raise Http404
  end.

End Django.
Import Django.


(* ================================================================== *)
(** ** Query building blocks *)

Definition with_posts (db : DB) (ps : list Post) : DB :=
  mkDB (users db) (categories db) (locations db) ps (comments db).

Definition with_comments (db : DB) (cs : list Comment) : DB :=
  mkDB (users db) (categories db) (locations db) (posts db) cs.

(** [annotate(comment_count=Count('comments'))]: every row is paired with
    the number of comments that point at it. *)
Definition annotate_comment_count (db : DB) (qs : list Post)
  : list (Post * nat) :=
  map (fun p => (p, List.length (post_comments db p))) qs.

(** [order_by('-pub_date')]: most recent first; rows with equal dates
    keep their storage order. *)
Fixpoint insert_by_pub_date (row : Post * nat) (rows : list (Post * nat))
  : list (Post * nat) :=
  match rows with
  | [] => [row]
  | r :: rest =>
      if (pub_date (fst r) <=? pub_date (fst row))%Z
      then row :: r :: rest
      else r :: insert_by_pub_date row rest
  end.

Definition order_by_pub_date_desc (rows : list (Post * nat))
  : list (Post * nat) :=
  fold_right insert_by_pub_date [] rows.

(** Lookups that span a relation ([category__is_published=True],
    [category__slug=...], [author__username=...]) are inner joins: a row
    whose related row is missing never matches. *)
Definition category__is_published (db : DB) (p : Post) : bool :=
  match post_category db p with
  | Some c => category_is_published c
  | None => false
  end.

Definition category__slug (db : DB) (s : string) (p : Post) : bool :=
  match post_category db p with
  | Some c => String.eqb (slug c) s
  | None => false
  end.

Definition author__username (db : DB) (name : string) (p : Post) : bool :=
  match post_author db p with
  | Some u => String.eqb (username u) name
  | None => false
  end.

(** The keyword arguments
    [pub_date__lt=timezone.now(), is_published=True,
     category__is_published=True]
    of the two [filter] calls in [views.py]. *)
Definition published_filter (db : DB) (now : Z) (row : Post * nat) : bool :=
  (pub_date (fst row) <? now)%Z
  && is_published (fst row)
  && category__is_published db (fst row).

(** A key for a new comment.  The database takes it from a sequence that
    never hands a key out twice; here it is the least number above every
    stored key, which agrees with the sequence as long as the newest
    comment has not been deleted.  The statements below rely on nothing
    but its being a key no stored comment has. *)
Definition next_comment_pk (db : DB) : nat :=
  S (fold_right Nat.max 0 (map comment_pk (comments db))).

(* ================================================================== *)
(** ** The views of [blog/views.py] *)

Section Views.

(** [PostForm.is_valid()] and [CommentForm.is_valid()]: [blog/forms.py]
    is not part of the sources, so validation is a parameter. *)
Variable PostForm_is_valid : DB -> PostFormData -> bool.
Variable CommentForm_is_valid : CommentFormData -> bool.

(** [PostForm.is_valid()] also runs the model form's cleaning, which
    writes every submitted field that validated into the in-memory
    instance the form was built on, whether or not the form as a whole
    is valid.  Which fields validate is decided in [blog/forms.py], so
    the instance as cleaning leaves it is a parameter as well. *)
Variable PostForm_post_clean : DB -> PostFormData -> Post -> Post.

(** *** [IsAuthorMixin] *)

Definition IsAuthorMixin_dispatch {A} `{Authored A} (get_object : View A)
    (request : HttpRequest) (super_dispatch : View Response)
  : View Response :=
  obj <- get_object ;;
  if negb (pk_eqb (Some (author_pk obj)) (request_user_pk (user request)))
  then
    obj' <- get_object ;;
    ret (HttpResponseRedirect (url_post_detail (pk obj')))
  else super_dispatch.

(** *** [PostDetailView] *)

Definition Post_get_object (post_id : nat) : View Post :=
  get_object_or_404 posts (fun p => post_pk p =? post_id).

(** The condition of the [if] in [PostDetailView.dispatch].  Python's
    [or] stops at the first true operand; the last operand reads
    [category.is_published], which raises when the post has no
    category. *)
Definition PostDetailView_hidden (post_obj : Post) (now : Z) : View bool :=
  if negb (is_published post_obj) then ret true
  else if (pub_date post_obj >? now)%Z then ret true
  else
    category <- query (fun db => post_category db post_obj) ;;
    match category with
    | Some c => ret (negb (category_is_published c))
    | None => raise AttributeError
    end.

Definition PostDetailView_get_context_data (post_obj : Post) : View Context :=
  post_comments <- query (fun db => post_comments db post_obj) ;;
  ret (DetailContext post_obj post_comments).

Definition PostDetailView_get (post_id : nat) : View Response :=
  object <- Post_get_object post_id ;;
  context <- PostDetailView_get_context_data object ;;
  ret (TemplateResponse "blog/detail.html" context).

Definition PostDetailView_dispatch (request : HttpRequest) (post_id : nat)
    (now : Z) : View Response :=
  post_obj <- Post_get_object post_id ;;
  hidden <- PostDetailView_hidden post_obj now ;;
  (if hidden
   then if negb (pk_eqb (request_user_pk (user request))
                        (Some (author_id post_obj)))
        then raise Http404
        else ret tt
   else ret tt) ;;;
  View_dispatch request (Some (PostDetailView_get post_id)) None.

(** *** [PostUpdateView] and [PostDeleteView] *)

Definition PostForm_save (data : PostFormData) (instance : Post) : View unit :=
  let saved :=
    mkPost (post_pk instance) (pf_title data) (pf_text data)
           (pf_pub_date data) (pf_is_published data) (author_id instance)
           (pf_category data) (pf_location data) in
  execute (fun db =>
    with_posts db
      (map (fun p => if post_pk p =? post_pk instance then saved else p)
           (posts db))).

Definition PostUpdateView_get_success_url (post_id : nat) : View URL :=
  object <- Post_get_object post_id ;;
  ret (url_post_detail (post_pk object)).

Definition PostUpdateView_get (post_id : nat) : View Response :=
  object <- Post_get_object post_id ;;
  ret (TemplateResponse "blog/create.html" (PostFormContext object None)).

(** [ProcessFormView.post]: a valid form is saved and answered with the
    success URL; an invalid one is rendered again, and the object the
    template is given is the instance as cleaning left it, not the
    stored row. *)
Definition PostUpdateView_post (post_id : nat) (data : PostFormData)
  : View Response :=
  object <- Post_get_object post_id ;;
  valid <- query (fun db => PostForm_is_valid db data) ;;
  if valid
  then
    PostForm_save data object ;;;
    url <- PostUpdateView_get_success_url post_id ;;
    ret (HttpResponseRedirect url)
  else
    instance <- query (fun db => PostForm_post_clean db data object) ;;
    ret (TemplateResponse "blog/create.html"
           (PostFormContext instance (Some data))).

(** Method-resolution order:
    [IsAuthorMixin], [PostEditMixin], [LoginRequiredMixin], [UpdateView]. *)
Definition PostUpdateView (request : HttpRequest) (post_id : nat)
    (data : PostFormData) : View Response :=
  IsAuthorMixin_dispatch (Post_get_object post_id) request
    (LoginRequiredMixin_dispatch request
       (View_dispatch request
          (Some (PostUpdateView_get post_id))
          (Some (PostUpdateView_post post_id data)))).

(** Deleting a post removes its comments with it. *)
Definition Post_delete (instance : Post) : View unit :=
  execute (fun db =>
    mkDB (users db) (categories db) (locations db)
      (filter (fun p => negb (post_pk p =? post_pk instance)) (posts db))
      (filter (fun c => negb (comment_post_id c =? post_pk instance))
              (comments db))).

(** The confirmation page: the template of [PostEditMixin], rendered for
    the post about to be deleted. *)
Definition PostDeleteView_get (post_id : nat) : View Response :=
  object <- Post_get_object post_id ;;
  ret (TemplateResponse "blog/create.html" (PostFormContext object None)).

(** [DeletionMixin.delete]: fetch the post, compute the success URL (the
    requester's profile), delete. *)
Definition PostDeleteView_post (request : HttpRequest) (post_id : nat)
  : View Response :=
  object <- Post_get_object post_id ;;
  let success_url := url_profile (request_user_username (user request)) in
  Post_delete object ;;;
  ret (HttpResponseRedirect success_url).

(** Method-resolution order:
    [IsAuthorMixin], [PostEditMixin], [LoginRequiredMixin], [DeleteView]. *)
Definition PostDeleteView (request : HttpRequest) (post_id : nat)
  : View Response :=
  IsAuthorMixin_dispatch (Post_get_object post_id) request
    (LoginRequiredMixin_dispatch request
       (View_dispatch request
          (Some (PostDeleteView_get post_id))
          (Some (PostDeleteView_post request post_id)))).

(** *** The feeds: [PostListMixin], [PostListView], [CategoryListlView],
        [ProfileListView] *)

Definition paginate_by : nat := 10.

Definition PostListMixin_get_queryset (db : DB) : list (Post * nat) :=
  order_by_pub_date_desc (annotate_comment_count db (posts db)).

Definition PostListView_get_queryset (now : Z) (db : DB)
  : list (Post * nat) :=
  filter (published_filter db now) (PostListMixin_get_queryset db).

Definition CategoryListlView_get_queryset (category : Category) (now : Z)
    (db : DB) : list (Post * nat) :=
  filter (fun row => category__slug db (slug category) (fst row))
         (PostListView_get_queryset now db).

(** In the branch for a visitor other than the owner the source calls
    [queryset.filter(...)] and drops the result; [queryset] itself is
    what the method returns. *)
Definition ProfileListView_get_queryset (request : HttpRequest)
    (username : string) (now : Z) (db : DB) : list (Post * nat) :=
  let queryset :=
    filter (fun row => author__username db username (fst row))
           (PostListMixin_get_queryset db) in
  let _ :=
    if negb (String.eqb (request_user_username (user request)) username)
    then filter (published_filter db now) queryset
    else queryset in
  queryset.

(** [BaseListView.get] with [MultipleObjectMixin.get_context_data]. *)
Definition ListView_get (request : HttpRequest)
    (get_queryset : DB -> list (Post * nat))
    (template_name : string)
    (extra_context : list (Post * nat) -> View Context) : View Response :=
  object_list <- query get_queryset ;;
  page_obj <- paginate_queryset object_list paginate_by request ;;
  context <- extra_context page_obj ;;
  ret (TemplateResponse template_name context).

Definition PostListView (request : HttpRequest) (now : Z) : View Response :=
  View_dispatch request
    (Some (ListView_get request (PostListView_get_queryset now)
             "blog/index.html"
             (fun page_obj => ret (ListContext page_obj None None))))
    None.

Definition CategoryListlView (request : HttpRequest) (category_slug : string)
    (now : Z) : View Response :=
  category <- get_object_or_404
                (fun db => filter category_is_published (categories db))
                (fun c => String.eqb (slug c) category_slug) ;;
  View_dispatch request
    (Some (ListView_get request
             (CategoryListlView_get_queryset category now)
             "blog/category.html"
             (fun page_obj =>
                ret (ListContext page_obj (Some category) None))))
    None.

Definition ProfileListView (request : HttpRequest) (username : string)
    (now : Z) : View Response :=
  View_dispatch request
    (Some (ListView_get request
             (ProfileListView_get_queryset request username now)
             "blog/profile.html"
             (fun page_obj =>
                profile <- get_object_or_404 users
                             (fun u => String.eqb (Models.username u) username) ;;
                ret (ListContext page_obj None (Some profile)))))
    None.

(** *** [CommentCreateView] *)

Definition CommentCreateView_form_valid (request : HttpRequest)
    (post_obj : Post) (data : CommentFormData) (now : Z) : View Response :=
  match user request with
  | AnonymousUser => raise ValueError
  | AuthUser u =>
      execute (fun db =>
        with_comments db
          (comments db ++
           [mkComment (next_comment_pk db) (cf_text data) now
                      (user_pk u) (post_pk post_obj)])) ;;;
      ret (HttpResponseRedirect (url_post_detail (post_pk post_obj)))
  end.

Definition CommentCreateView_post (request : HttpRequest) (post_obj : Post)
    (data : CommentFormData) (now : Z) : View Response :=
  if CommentForm_is_valid data
  then CommentCreateView_form_valid request post_obj data now
  else ret (TemplateResponse "blog/comment_form.html"
              (CommentFormContext None (Some data))).

(** Method-resolution order: the view's own [dispatch],
    [LoginRequiredMixin], [CreateView]. *)
Definition CommentCreateView (request : HttpRequest) (post_id : nat)
    (data : CommentFormData) (now : Z) : View Response :=
  post_obj <- get_object_or_404 posts (fun p => post_pk p =? post_id) ;;
  LoginRequiredMixin_dispatch request
    (View_dispatch request
       (Some (ret (TemplateResponse "blog/comment_form.html"
                     (CommentFormContext None None))))
       (Some (CommentCreateView_post request post_obj data now))).

(** *** [CommentMixin], [CommentUpdateView], [CommentDeleteView] *)

Definition Comment_get_object (comment_id : nat) : View Comment :=
  get_object_or_404 comments (fun c => comment_pk c =? comment_id).

Definition CommentMixin_dispatch (post_id : nat)
    (super_dispatch : View Response) : View Response :=
  post_obj <- get_object_or_404 posts (fun p => post_pk p =? post_id) ;;
  super_dispatch.

Definition CommentMixin_get_success_url (comment_id : nat) : View URL :=
  object <- Comment_get_object comment_id ;;
  ret (url_post_detail (comment_post_id object)).

Definition CommentForm_save (data : CommentFormData) (instance : Comment)
  : View unit :=
  let saved :=
    mkComment (comment_pk instance) (cf_text data) (created_at instance)
              (comment_author_id instance) (comment_post_id instance) in
  execute (fun db =>
    with_comments db
      (map (fun c => if comment_pk c =? comment_pk instance then saved else c)
           (comments db))).

Definition CommentUpdateView_get (comment_id : nat) : View Response :=
  object <- Comment_get_object comment_id ;;
  ret (TemplateResponse "blog/comment.html"
         (CommentFormContext (Some object) None)).

Definition CommentUpdateView_post (comment_id : nat) (data : CommentFormData)
  : View Response :=
  object <- Comment_get_object comment_id ;;
  if CommentForm_is_valid data
  then
    CommentForm_save data object ;;;
    url <- CommentMixin_get_success_url comment_id ;;
    ret (HttpResponseRedirect url)
  else
    ret (TemplateResponse "blog/comment.html"
           (CommentFormContext (Some object) (Some data))).

(** Method-resolution order:
    [LoginRequiredMixin], [IsAuthorMixin], [CommentMixin], [UpdateView]. *)
Definition CommentUpdateView (request : HttpRequest)
    (post_id comment_id : nat) (data : CommentFormData) : View Response :=
  LoginRequiredMixin_dispatch request
    (IsAuthorMixin_dispatch (Comment_get_object comment_id) request
       (CommentMixin_dispatch post_id
          (View_dispatch request
             (Some (CommentUpdateView_get comment_id))
             (Some (CommentUpdateView_post comment_id data))))).

Definition Comment_delete (instance : Comment) : View unit :=
  execute (fun db =>
    with_comments db
      (filter (fun c => negb (comment_pk c =? comment_pk instance))
              (comments db))).

Definition CommentDeleteView_get (comment_id : nat) : View Response :=
  object <- Comment_get_object comment_id ;;
  ret (TemplateResponse "blog/comment.html"
         (CommentFormContext (Some object) None)).

(** [DeletionMixin.delete]: the success URL is computed while the row is
    still there, then the row is deleted. *)
Definition CommentDeleteView_post (comment_id : nat) : View Response :=
  object <- Comment_get_object comment_id ;;
  success_url <- CommentMixin_get_success_url comment_id ;;
  Comment_delete object ;;;
  ret (HttpResponseRedirect success_url).

(** Method-resolution order:
    [LoginRequiredMixin], [IsAuthorMixin], [CommentMixin], [DeleteView]. *)
Definition CommentDeleteView (request : HttpRequest)
    (post_id comment_id : nat) : View Response :=
  LoginRequiredMixin_dispatch request
    (IsAuthorMixin_dispatch (Comment_get_object comment_id) request
       (CommentMixin_dispatch post_id
          (View_dispatch request
             (Some (CommentDeleteView_get comment_id))
             (Some (CommentDeleteView_post comment_id))))).

End Views.

(** *** [PostCreateView] *)

(** A key for a new post: as for comments, a number above every stored
    key; only its being unused is relied upon. *)
Definition next_post_pk (db : DB) : nat :=
  S (fold_right Nat.max 0 (map post_pk (posts db))).

Section PostCreation.

Variable PostForm_is_valid : DB -> PostFormData -> bool.

(** The page rendered from [blog/create.html] for a form that has no
    stored post behind it, unbound or bound to the submitted data; the
    templates are not part of the sources. *)
Variable create_page : option PostFormData -> Response.

(** [form.instance.author = self.request.user], then
    [ModelFormMixin.form_valid]: save and redirect to the success URL,
    the requester's profile. *)
Definition PostCreateView_form_valid (request : HttpRequest)
    (data : PostFormData) : View Response :=
  match user request with
  | AnonymousUser => raise ValueError
  | AuthUser u =>
      execute (fun db =>
        with_posts db
          (posts db ++
           [mkPost (next_post_pk db) (pf_title data) (pf_text data)
                   (pf_pub_date data) (pf_is_published data) (user_pk u)
                   (pf_category data) (pf_location data)])) ;;;
      ret (HttpResponseRedirect
             (url_profile (request_user_username (user request))))
  end.

Definition PostCreateView_post (request : HttpRequest) (data : PostFormData)
  : View Response :=
  valid <- query (fun db => PostForm_is_valid db data) ;;
  if valid
  then PostCreateView_form_valid request data
  else ret (create_page (Some data)).

(** Method-resolution order:
    [PostEditMixin], [LoginRequiredMixin], [CreateView]. *)
Definition PostCreateView (request : HttpRequest) (data : PostFormData)
  : View Response :=
  LoginRequiredMixin_dispatch request
    (View_dispatch request
       (Some (ret (create_page None)))
       (Some (PostCreateView_post request data))).

End PostCreation.

(* ================================================================== *)
(** ** Vocabulary of the statements *)

(** The restrictive visibility rule in the words of the specification:
    published, not dated in the future, in a published category. *)
Definition publicly_visible (db : DB) (now : Z) (p : Post) : Prop :=
  is_published p = true /\
  (pub_date p <= now)%Z /\
  exists c, post_category db p = Some c /\ category_is_published c = true.

(** Most recent first. *)
Definition pub_date_desc (a b : Post * nat) : Prop :=
  (pub_date (fst b) <= pub_date (fst a))%Z.

(** Page [n], counted from one, of a list cut into runs of
    [paginate_by]. *)
Definition nth_page {A} (l : list A) (n : nat) : list A :=
  firstn paginate_by (skipn ((n - 1) * paginate_by) l).

Definition ok {A} (a : A) (db : DB) : (Exception + A) * DB := (inr a, db).

Definition failed {A} (e : Exception) (db : DB) : (Exception + A) * DB :=
  (inl e, db).

Definition is_redirect_to_post_detail (r : Response) : Prop :=
  exists post_id, r = HttpResponseRedirect (url_post_detail post_id).

(** The viewer is the author of the post. *)
Definition is_author_of (request : HttpRequest) (p : Post) : Prop :=
  request_user_pk (user request) = Some (author_id p).

Definition lookup_post (db : DB) (post_id : nat) : option Post :=
  find (fun q => post_pk q =? post_id) (posts db).

Definition lookup_comment (db : DB) (comment_id : nat) : option Comment :=
  find (fun q => comment_pk q =? comment_id) (comments db).

(** A feed row after comment [c] has been added: the count of the post
    [c] belongs to goes up by one. *)
Definition count_comment (c : Comment) (row : Post * nat) : Post * nat :=
  (fst row,
   snd row + (if comment_post_id c =? post_pk (fst row) then 1 else 0)).

(** A computation that hands back the store it was given, whether it
    answers or raises. *)
Definition read_only {A} (m : View A) : Prop :=
  forall db, snd (m db) = db.

(* ================================================================== *)
(** ** A small site, used to run the views on concrete requests *)

Module Site.

Definition alice : User := mkUser 1 "alice".
Definition bob : User := mkUser 2 "bob".

Definition travel : Category := mkCategory 1 "Travel" "travel" true.
Definition archive : Category := mkCategory 2 "Archive" "archive" false.

Definition now : Z := 200%Z.

(** Bob's published post in a published category. *)
Definition post5 : Post :=
  mkPost 5 "Lisbon" "Trams." 100%Z true 2 (Some 1) None.
(** Bob's draft. *)
Definition post6 : Post :=
  mkPost 6 "Notes" "Unfinished." 100%Z false 2 (Some 1) None.
(** Alice's post, dated exactly [now]. *)
Definition post7 : Post :=
  mkPost 7 "Porto" "Bridges." 200%Z true 1 (Some 1) None.
(** Bob's published post without a category. *)
Definition post8 : Post :=
  mkPost 8 "Loose" "No category." 50%Z true 2 None None.
(** Bob's post in an unpublished category, dated in the future. *)
Definition post9 : Post :=
  mkPost 9 "Later" "Scheduled." 500%Z true 2 (Some 2) None.

(** Bob's comment on post 5; its own key is 7. *)
Definition comment7 : Comment := mkComment 7 "First!" 120%Z 2 5.

Definition db : DB :=
  mkDB [alice; bob] [travel; archive] []
       [post5; post6; post7; post8; post9] [comment7].

Definition PostForm_is_valid (_ : DB) (data : PostFormData) : bool :=
  negb (String.eqb (pf_title data) "").

(** With the validation above only an empty title fails; every other
    submitted field is written into the instance. *)
Definition PostForm_post_clean (_ : DB) (data : PostFormData)
    (instance : Post) : Post :=
  mkPost (post_pk instance)
    (if String.eqb (pf_title data) "" then title instance else pf_title data)
    (pf_text data) (pf_pub_date data) (pf_is_published data)
    (author_id instance) (pf_category data) (pf_location data).

Definition CommentForm_is_valid (data : CommentFormData) : bool :=
  negb (String.eqb (cf_text data) "").

Definition request (m : Method) (ru : RequestUser) : HttpRequest :=
  mkRequest m ru "/" page_absent.

Definition hello : CommentFormData := mkCommentFormData "Hello".

Definition retitle : PostFormData :=
  mkPostFormData "Changed" "Changed." 0%Z true None None.

Definition create_page (bound : option PostFormData) : Response :=
  TemplateResponse "blog/create.html"
    (PostFormContext (mkPost 0 "" "" 0%Z true 0 None None) bound).

(** A second comment by Alice on post 5, and her comment on post 7. *)
Definition comment8 : Comment := mkComment 8 "Nice." 130%Z 1 5.
Definition comment9 : Comment := mkComment 9 "Mine." 210%Z 1 7.

Definition db2 : DB :=
  mkDB [alice; bob] [travel; archive] []
       [post5; post6; post7; post8; post9] [comment7; comment8; comment9].

End Site.

(* ================================================================== *)
(** ** Basic facts about the monad and the lookups *)

Lemma get_object_or_404_found {A} (table : DB -> list A) lookup db a :
  find lookup (table db) = Some a ->
  get_object_or_404 table lookup db = ok a db.
Proof.
  intros Hfind. unfold get_object_or_404, bind, query, ok.
  now rewrite Hfind.
Qed.

Lemma get_object_or_404_missing {A} (table : DB -> list A) lookup db :
  find lookup (table db) = None ->
  get_object_or_404 table lookup db = failed Http404 db.
Proof.
  intros Hfind. unfold get_object_or_404, bind, query, failed.
  now rewrite Hfind.
Qed.

Lemma bind_ok {A B} (m : View A) (k : A -> View B) db a :
  m db = ok a db -> bind m k db = k a db.
Proof. intros Hm. unfold bind. now rewrite Hm. Qed.

Lemma bind_failed {A B} (m : View A) (k : A -> View B) db e :
  m db = failed e db -> bind m k db = failed e db.
Proof. intros Hm. unfold bind. now rewrite Hm. Qed.

Lemma find_pk_eq (post_id : nat) (l : list Post) (p : Post) :
  find (fun q => post_pk q =? post_id) l = Some p -> post_pk p = post_id.
Proof.
  intros Hfind. apply find_some in Hfind. now apply Nat.eqb_eq.
Qed.

Lemma pk_eqb_neq_l (a b : nat) : a <> b -> pk_eqb (Some a) (Some b) = false.
Proof. intros Hne. simpl. now apply Nat.eqb_neq. Qed.

(* ================================================================== *)
(** ** The author guard *)

(** What [IsAuthorMixin.dispatch] does for a requester who is not the
    author of an object that exists: it answers with a redirect to the
    post-detail route built from [obj.pk], and neither touches the store
    nor calls the rest of the chain. *)
Lemma IsAuthorMixin_dispatch_other {A} `{Authored A}
    (get_object : View A) request super_dispatch db obj :
  get_object db = ok obj db ->
  pk_eqb (Some (author_pk obj)) (request_user_pk (user request)) = false ->
  IsAuthorMixin_dispatch get_object request super_dispatch db
  = ok (HttpResponseRedirect (url_post_detail (pk obj))) db.
Proof.
  intros Hget Hne. unfold IsAuthorMixin_dispatch.
  rewrite (bind_ok _ _ _ _ Hget), Hne. simpl.
  now rewrite (bind_ok _ _ _ _ Hget).
Qed.

Lemma IsAuthorMixin_dispatch_author {A} `{Authored A}
    (get_object : View A) request super_dispatch db obj :
  get_object db = ok obj db ->
  pk_eqb (Some (author_pk obj)) (request_user_pk (user request)) = true ->
  IsAuthorMixin_dispatch get_object request super_dispatch db
  = super_dispatch db.
Proof.
  intros Hget Heq. unfold IsAuthorMixin_dispatch.
  now rewrite (bind_ok _ _ _ _ Hget), Heq.
Qed.

Lemma LoginRequiredMixin_dispatch_authenticated request super_dispatch u :
  user request = AuthUser u ->
  LoginRequiredMixin_dispatch request super_dispatch = super_dispatch.
Proof.
  intros Hu. unfold LoginRequiredMixin_dispatch. now rewrite Hu.
Qed.

Lemma LoginRequiredMixin_dispatch_anonymous request super_dispatch db :
  user request = AnonymousUser ->
  LoginRequiredMixin_dispatch request super_dispatch db
  = ok (HttpResponseRedirect (url_login (path request))) db.
Proof.
  intros Hu. unfold LoginRequiredMixin_dispatch, handle_no_permission.
  now rewrite Hu.
Qed.

(** The anonymous user is nobody's author. *)
Lemma anonymous_is_not_author (k : nat) :
  pk_eqb (Some k) (request_user_pk AnonymousUser) = false.
Proof. reflexivity. Qed.

(** C5. An edit or delete attempt on a post or a comment by an
    authenticated user who is not its author leaves the store exactly as
    it was, so the targeted row keeps every field and stays in place,
    and the answer is a redirect to a post-detail route rather than an
    error. *)
Theorem non_author_mutation_is_noop
    (PostForm_is_valid : DB -> PostFormData -> bool)
    (PostForm_post_clean : DB -> PostFormData -> Post -> Post)
    (CommentForm_is_valid : CommentFormData -> bool)
    (request : HttpRequest) (u : User) (db : DB) :
  user request = AuthUser u ->
  (forall post_id p data,
      find (fun q => post_pk q =? post_id) (posts db) = Some p ->
      author_id p <> user_pk u ->
      (exists r,
          PostUpdateView PostForm_is_valid PostForm_post_clean request
            post_id data db = ok r db
          /\ is_redirect_to_post_detail r) /\
      (exists r,
          PostDeleteView request post_id db = ok r db
          /\ is_redirect_to_post_detail r)) /\
  (forall post_id comment_id c data,
      find (fun q => comment_pk q =? comment_id) (comments db) = Some c ->
      comment_author_id c <> user_pk u ->
      (exists r,
          CommentUpdateView CommentForm_is_valid request post_id comment_id
            data db = ok r db
          /\ is_redirect_to_post_detail r) /\
      (exists r,
          CommentDeleteView request post_id comment_id db = ok r db
          /\ is_redirect_to_post_detail r)).
Proof.
  intros Hu. split.
  - intros post_id p data Hfind Hne.
    assert (Hget : Post_get_object post_id db = ok p db)
      by now apply get_object_or_404_found.
    assert (Hpk : pk_eqb (Some (author_pk p)) (request_user_pk (user request))
                  = false)
      by (rewrite Hu; now apply pk_eqb_neq_l).
    split; eexists; (split; [ | eexists; reflexivity ]).
    + unfold PostUpdateView.
      exact (IsAuthorMixin_dispatch_other _ _ _ _ _ Hget Hpk).
    + unfold PostDeleteView.
      exact (IsAuthorMixin_dispatch_other _ _ _ _ _ Hget Hpk).
  - intros post_id comment_id c data Hfind Hne.
    assert (Hget : Comment_get_object comment_id db = ok c db)
      by now apply get_object_or_404_found.
    assert (Hpk : pk_eqb (Some (author_pk c)) (request_user_pk (user request))
                  = false)
      by (rewrite Hu; now apply pk_eqb_neq_l).
    split; eexists; (split; [ | eexists; reflexivity ]).
    + unfold CommentUpdateView.
      rewrite (LoginRequiredMixin_dispatch_authenticated _ _ _ Hu).
      exact (IsAuthorMixin_dispatch_other _ _ _ _ _ Hget Hpk).
    + unfold CommentDeleteView.
      rewrite (LoginRequiredMixin_dispatch_authenticated _ _ _ Hu).
      exact (IsAuthorMixin_dispatch_other _ _ _ _ _ Hget Hpk).
Qed.

Lemma non_author_mutation_is_noop_witness :
  (exists r,
      PostUpdateView Site.PostForm_is_valid Site.PostForm_post_clean
        (Site.request POST (AuthUser Site.alice)) 5 Site.retitle Site.db
      = ok r Site.db /\ is_redirect_to_post_detail r) /\
  (exists r,
      CommentDeleteView (Site.request POST (AuthUser Site.alice)) 5 7 Site.db
      = ok r Site.db /\ is_redirect_to_post_detail r).
Proof.
  destruct (non_author_mutation_is_noop Site.PostForm_is_valid
              Site.PostForm_post_clean
              Site.CommentForm_is_valid
              (Site.request POST (AuthUser Site.alice)) Site.alice Site.db
              eq_refl) as [Hpost Hcomment].
  split.
  - apply (Hpost 5 Site.post5 Site.retitle); [reflexivity | discriminate].
  - apply (Hcomment 5 7 Site.comment7 Site.hello);
      [reflexivity | discriminate].
Defined.

(** On the post views the author guard is the first class of the
    resolution order, so it also meets the anonymous requester. *)
Lemma PostUpdateView_anonymous
    PostForm_is_valid PostForm_post_clean request post_id data db p :
  user request = AnonymousUser ->
  find (fun q => post_pk q =? post_id) (posts db) = Some p ->
  PostUpdateView PostForm_is_valid PostForm_post_clean request
    post_id data db
  = ok (HttpResponseRedirect (url_post_detail post_id)) db.
Proof.
  intros Hu Hfind. unfold PostUpdateView.
  rewrite (IsAuthorMixin_dispatch_other (Post_get_object post_id) _ _ _ p).
  - simpl. now rewrite (find_pk_eq _ _ _ Hfind).
  - now apply get_object_or_404_found.
  - rewrite Hu. apply anonymous_is_not_author.
Qed.

Lemma PostDeleteView_anonymous request post_id db p :
  user request = AnonymousUser ->
  find (fun q => post_pk q =? post_id) (posts db) = Some p ->
  PostDeleteView request post_id db
  = ok (HttpResponseRedirect (url_post_detail post_id)) db.
Proof.
  intros Hu Hfind. unfold PostDeleteView.
  rewrite (IsAuthorMixin_dispatch_other (Post_get_object post_id) _ _ _ p).
  - simpl. now rewrite (find_pk_eq _ _ _ Hfind).
  - now apply get_object_or_404_found.
  - rewrite Hu. apply anonymous_is_not_author.
Qed.

(** On the comment views the login check comes first. *)
Lemma CommentUpdateView_anonymous
    CommentForm_is_valid request post_id comment_id data db :
  user request = AnonymousUser ->
  CommentUpdateView CommentForm_is_valid request post_id comment_id data db
  = ok (HttpResponseRedirect (url_login (path request))) db.
Proof.
  intros Hu. unfold CommentUpdateView.
  now apply LoginRequiredMixin_dispatch_anonymous.
Qed.

Lemma CommentDeleteView_anonymous request post_id comment_id db :
  user request = AnonymousUser ->
  CommentDeleteView request post_id comment_id db
  = ok (HttpResponseRedirect (url_login (path request))) db.
Proof.
  intros Hu. unfold CommentDeleteView.
  now apply LoginRequiredMixin_dispatch_anonymous.
Qed.

(** C3. The views run on the failing request: an anonymous visitor asks
    for the edit and the delete page of post 5.  The author guard answers
    first, with a redirect to the post's detail route; no login redirect
    is issued. *)
Theorem anonymous_post_edit_reaches_author_check :
  PostUpdateView Site.PostForm_is_valid Site.PostForm_post_clean
    (Site.request GET AnonymousUser)
    5 Site.retitle Site.db
  = ok (HttpResponseRedirect (url_post_detail 5)) Site.db
  /\
  PostDeleteView (Site.request POST AnonymousUser) 5 Site.db
  = ok (HttpResponseRedirect (url_post_detail 5)) Site.db.
Proof.
  split.
  - now apply (PostUpdateView_anonymous _ _ _ _ _ _ Site.post5).
  - now apply (PostDeleteView_anonymous _ _ _ Site.post5).
Qed.

(** The redirect of the author guard on a comment is built from the
    comment's own key. *)
Lemma CommentUpdateView_other
    CommentForm_is_valid request post_id comment_id data db u c :
  user request = AuthUser u ->
  find (fun q => comment_pk q =? comment_id) (comments db) = Some c ->
  comment_author_id c <> user_pk u ->
  CommentUpdateView CommentForm_is_valid request post_id comment_id data db
  = ok (HttpResponseRedirect (url_post_detail (comment_pk c))) db.
Proof.
  intros Hu Hfind Hne. unfold CommentUpdateView.
  rewrite (LoginRequiredMixin_dispatch_authenticated _ _ _ Hu).
  change (comment_pk c) with (pk c).
  apply (IsAuthorMixin_dispatch_other (Comment_get_object comment_id)).
  - now apply get_object_or_404_found.
  - rewrite Hu. now apply pk_eqb_neq_l.
Qed.

Lemma CommentDeleteView_other request post_id comment_id db u c :
  user request = AuthUser u ->
  find (fun q => comment_pk q =? comment_id) (comments db) = Some c ->
  comment_author_id c <> user_pk u ->
  CommentDeleteView request post_id comment_id db
  = ok (HttpResponseRedirect (url_post_detail (comment_pk c))) db.
Proof.
  intros Hu Hfind Hne. unfold CommentDeleteView.
  rewrite (LoginRequiredMixin_dispatch_authenticated _ _ _ Hu).
  change (comment_pk c) with (pk c).
  apply (IsAuthorMixin_dispatch_other (Comment_get_object comment_id)).
  - now apply get_object_or_404_found.
  - rewrite Hu. now apply pk_eqb_neq_l.
Qed.

(** C4. The views run on the failing request: Alice asks to edit and to
    delete Bob's comment 7, whose parent is post 5.  She is redirected to
    the detail route of post 7, the route built from the comment's key,
    and not to that of the parent post. *)
Theorem comment_guard_redirects_by_comment_key :
  comment_post_id Site.comment7 = 5
  /\
  CommentUpdateView Site.CommentForm_is_valid
    (Site.request POST (AuthUser Site.alice)) 5 7 Site.hello Site.db
  = ok (HttpResponseRedirect (url_post_detail 7)) Site.db
  /\
  CommentDeleteView (Site.request POST (AuthUser Site.alice)) 5 7 Site.db
  = ok (HttpResponseRedirect (url_post_detail 7)) Site.db.
Proof.
  split; [reflexivity | split].
  - apply (CommentUpdateView_other _ _ _ _ _ _ Site.alice Site.comment7);
      [reflexivity | reflexivity | discriminate].
  - apply (CommentDeleteView_other _ _ _ _ Site.alice Site.comment7);
      [reflexivity | reflexivity | discriminate].
Qed.

(* ================================================================== *)
(** ** The detail view *)

Ltac run_detail :=
  unfold PostDetailView_dispatch, PostDetailView_get,
    PostDetailView_get_context_data, PostDetailView_hidden, Post_get_object,
    get_object_or_404, View_dispatch, bind, query, ret, raise, ok, failed.

(** For a post that has a category, [PostDetailView_hidden] is the
    negation of the restrictive rule. *)
Lemma PostDetailView_hidden_with_category db now p c :
  post_category db p = Some c ->
  exists hidden,
    PostDetailView_hidden p now db = ok hidden db /\
    (hidden = false <-> publicly_visible db now p).
Proof.
  intros Hcat. unfold PostDetailView_hidden, publicly_visible, bind, query,
    ret, ok.
  destruct (is_published p).
  - destruct (pub_date p >? now)%Z eqn:Hdate; simpl.
    + exists true. split; [reflexivity | ].
      split; [discriminate | ]. intros (_ & Hle & _). lia.
    + rewrite Hcat. exists (negb (category_is_published c)).
      split; [reflexivity | ].
      rewrite negb_false_iff. split.
      * intros Hc. repeat split; [lia | now exists c].
      * intros (_ & _ & c' & Hc' & Hpub). congruence.
  - exists true. split; [reflexivity | ].
    split; [discriminate | ]. intros (Hp & _). discriminate.
Qed.

(** A viewer other than the author gets the not-found answer for a post
    with a category that fails the rule. *)
Lemma PostDetailView_outsider_404 request post_id now db p c :
  find (fun q => post_pk q =? post_id) (posts db) = Some p ->
  post_category db p = Some c ->
  pk_eqb (request_user_pk (user request)) (Some (author_id p)) = false ->
  ~ publicly_visible db now p ->
  PostDetailView_dispatch request post_id now db = failed Http404 db.
Proof.
  intros Hfind Hcat Hviewer Hhidden.
  destruct (PostDetailView_hidden_with_category db now p c Hcat)
    as (hidden & Hrun & Hiff).
  unfold PostDetailView_dispatch.
  rewrite (bind_ok _ _ _ _ (get_object_or_404_found _ _ _ _ Hfind)).
  rewrite (bind_ok _ _ _ _ Hrun).
  destruct hidden.
  - now rewrite Hviewer.
  - exfalso. now apply Hhidden, Hiff.
Qed.

(** The author of a post with a category is shown the post, whatever its
    publication state. *)
Lemma PostDetailView_author_ok request post_id now db p c :
  find (fun q => post_pk q =? post_id) (posts db) = Some p ->
  post_category db p = Some c ->
  pk_eqb (request_user_pk (user request)) (Some (author_id p)) = true ->
  method request = GET ->
  PostDetailView_dispatch request post_id now db
  = ok (TemplateResponse "blog/detail.html"
          (DetailContext p (post_comments db p))) db.
Proof.
  intros Hfind Hcat Hviewer Hget.
  destruct (PostDetailView_hidden_with_category db now p c Hcat)
    as (hidden & Hrun & _).
  unfold PostDetailView_dispatch.
  rewrite (bind_ok _ _ _ _ (get_object_or_404_found _ _ _ _ Hfind)).
  rewrite (bind_ok _ _ _ _ Hrun).
  assert (Hrest :
    View_dispatch request (Some (PostDetailView_get post_id)) None db
    = ok (TemplateResponse "blog/detail.html"
            (DetailContext p (post_comments db p))) db).
  { run_detail. now rewrite Hget, Hfind. }
  destruct hidden; [rewrite Hviewer | ]; exact Hrest.
Qed.

Lemma PostDetailView_get_never_denies request post_id db :
  fst (View_dispatch request (Some (PostDetailView_get post_id)) None db)
  <> inl PermissionDenied.
Proof.
  run_detail. destruct (method request); simpl; try discriminate.
  destruct (find _ (posts db)); simpl; discriminate.
Qed.

(** The detail view never answers with the authorisation-denied
    condition. *)
Lemma PostDetailView_never_denies request post_id now db :
  fst (PostDetailView_dispatch request post_id now db) <> inl PermissionDenied.
Proof.
  pose proof (PostDetailView_get_never_denies request post_id db) as Hrest.
  unfold PostDetailView_dispatch, PostDetailView_hidden, Post_get_object,
    get_object_or_404, bind, query, ret, raise.
  destruct (find _ (posts db)) as [p | ]; simpl; [ | discriminate].
  destruct (is_published p); simpl;
    [ destruct (pub_date p >? now)%Z; simpl;
      [ | destruct (post_category db p) as [c | ]; simpl;
          [ destruct (category_is_published c); simpl | discriminate ] ]
    | ];
    try exact Hrest;
    (destruct (pk_eqb _ _); simpl; [exact Hrest | discriminate]).
Qed.

(** A published post that is not dated in the future and has no category
    makes the detail view raise, whoever asks. *)
Lemma PostDetailView_without_category request post_id now db p :
  find (fun q => post_pk q =? post_id) (posts db) = Some p ->
  is_published p = true ->
  (pub_date p <= now)%Z ->
  post_category db p = None ->
  PostDetailView_dispatch request post_id now db = failed AttributeError db.
Proof.
  intros Hfind Hpub Hdate Hcat. run_detail.
  rewrite Hfind, Hpub. simpl.
  destruct (pub_date p >? now)%Z eqn:Hgt; [lia | ].
  now rewrite Hcat.
Qed.

(** C1. The detail view run on the failing request: Bob asks for his own
    post 8, which is published, dated in the past and has no category.
    The view raises [AttributeError] while reading the category's flag;
    the author is not shown the post. *)
Theorem author_detail_of_uncategorised_post_raises :
  author_id Site.post8 = user_pk Site.bob
  /\
  PostDetailView_dispatch (Site.request GET (AuthUser Site.bob)) 8
    Site.now Site.db
  = failed AttributeError Site.db.
Proof.
  split; [reflexivity | ].
  apply (PostDetailView_without_category _ _ _ _ Site.post8);
    [reflexivity | reflexivity | discriminate | reflexivity].
Qed.

(** C6. The detail view run on the failing request: an anonymous visitor
    asks for post 8, which is published, dated in the past and has no
    category.  The view raises [AttributeError], an error other than
    not-found, and shows nothing. *)
Theorem uncategorised_post_detail_raises :
  is_published Site.post8 = true
  /\ (pub_date Site.post8 <= Site.now)%Z
  /\ category_id Site.post8 = None
  /\
  PostDetailView_dispatch (Site.request GET AnonymousUser) 8
    Site.now Site.db
  = failed AttributeError Site.db.
Proof.
  repeat split; try reflexivity; try discriminate.
Qed.

(* ================================================================== *)
(** ** The query building blocks *)

Lemma In_insert_by_pub_date row rows x :
  In x (insert_by_pub_date row rows) <-> x = row \/ In x rows.
Proof.
  induction rows as [ | r rest IH]; simpl.
  - intuition.
  - destruct (pub_date (fst r) <=? pub_date (fst row))%Z; simpl.
    + intuition.
    + rewrite IH. intuition.
Qed.

Lemma In_order_by_pub_date_desc rows x :
  In x (order_by_pub_date_desc rows) <-> In x rows.
Proof.
  induction rows as [ | r rest IH]; simpl.
  - reflexivity.
  - rewrite In_insert_by_pub_date, IH. intuition.
Qed.

Lemma insert_by_pub_date_sorted row rows :
  StronglySorted pub_date_desc rows ->
  StronglySorted pub_date_desc (insert_by_pub_date row rows).
Proof.
  induction 1 as [ | r rest Hsorted IH Hall]; simpl.
  - constructor; constructor.
  - destruct (pub_date (fst r) <=? pub_date (fst row))%Z eqn:Hcmp.
    + apply Z.leb_le in Hcmp.
      constructor; [now constructor | ].
      constructor; [exact Hcmp | ].
      rewrite Forall_forall in Hall |- *. intros x Hx.
      specialize (Hall x Hx). unfold pub_date_desc in *. lia.
    + apply Z.leb_gt in Hcmp.
      constructor; [exact IH | ].
      rewrite Forall_forall in Hall |- *. intros x Hx.
      apply In_insert_by_pub_date in Hx. destruct Hx as [-> | Hx].
      * unfold pub_date_desc. lia.
      * now apply Hall.
Qed.

Lemma order_by_pub_date_desc_sorted rows :
  StronglySorted pub_date_desc (order_by_pub_date_desc rows).
Proof.
  induction rows as [ | r rest IH]; simpl.
  - constructor.
  - now apply insert_by_pub_date_sorted.
Qed.

Lemma StronglySorted_filter {A} (R : A -> A -> Prop) (f : A -> bool) l :
  StronglySorted R l -> StronglySorted R (filter f l).
Proof.
  induction 1 as [ | a l Hsorted IH Hall]; simpl.
  - constructor.
  - destruct (f a); [ | exact IH].
    constructor; [exact IH | ].
    rewrite Forall_forall in Hall |- *. intros x Hx.
    apply filter_In in Hx. now apply Hall.
Qed.

Lemma In_annotate_comment_count db qs p n :
  In (p, n) (annotate_comment_count db qs)
  <-> In p qs /\ n = List.length (post_comments db p).
Proof.
  unfold annotate_comment_count. rewrite in_map_iff. split.
  - intros (q & Heq & Hq). inversion Heq; subst. now split.
  - intros (Hp & ->). now exists p.
Qed.

Lemma In_PostListMixin_get_queryset db p n :
  In (p, n) (PostListMixin_get_queryset db)
  <-> In p (posts db) /\ n = List.length (post_comments db p).
Proof.
  unfold PostListMixin_get_queryset.
  now rewrite In_order_by_pub_date_desc, In_annotate_comment_count.
Qed.

Lemma In_map_fst_PostListMixin_get_queryset db p :
  In p (map fst (PostListMixin_get_queryset db)) <-> In p (posts db).
Proof.
  rewrite in_map_iff. split.
  - intros ([q n] & Heq & Hq). simpl in Heq. subst q.
    now apply In_PostListMixin_get_queryset in Hq.
  - intros Hp. exists (p, List.length (post_comments db p)).
    split; [reflexivity | ]. now apply In_PostListMixin_get_queryset.
Qed.

(** The keyword filter of the feeds, read as a proposition: the time
    bound is strict. *)
Lemma published_filter_true db now p n :
  published_filter db now (p, n) = true
  <-> is_published p = true /\ (pub_date p < now)%Z /\
      exists c, post_category db p = Some c /\ category_is_published c = true.
Proof.
  unfold published_filter, category__is_published. simpl.
  rewrite !andb_true_iff, Z.ltb_lt.
  destruct (post_category db p) as [c | ].
  - split.
    + intros [[Hdate Hpub] Hcat]. repeat split; trivial. now exists c.
    + intros (Hpub & Hdate & c' & Hc' & Hcat). inversion Hc'; subst.
      now repeat split.
  - split.
    + intros [_ Hcat]. discriminate.
    + intros (_ & _ & c' & Hc' & _). discriminate.
Qed.

Lemma In_map_fst_PostListView_get_queryset now db p :
  In p (map fst (PostListView_get_queryset now db))
  <-> In p (posts db) /\ is_published p = true /\ (pub_date p < now)%Z /\
      exists c, post_category db p = Some c /\ category_is_published c = true.
Proof.
  unfold PostListView_get_queryset. rewrite in_map_iff. split.
  - intros ([q n] & Heq & Hq). simpl in Heq. subst q.
    apply filter_In in Hq. destruct Hq as [Hq Hf].
    apply In_PostListMixin_get_queryset in Hq.
    apply published_filter_true in Hf. tauto.
  - intros (Hp & Hrest).
    exists (p, List.length (post_comments db p)). split; [reflexivity | ].
    apply filter_In. split.
    + now apply In_PostListMixin_get_queryset.
    + now apply published_filter_true.
Qed.

(* ================================================================== *)
(** ** The feeds *)

(** X24. What the home feed and the category feed list: a post is listed
    exactly when it is stored, published, in a published category (in
    the category feed, the one with the requested slug) and its
    [pub_date] is earlier than the current time.  The bound is the
    strict one of [pub_date__lt], so a post dated exactly at the current
    time is not listed. *)
Theorem feed_time_bound_is_strict (now : Z) (db : DB) :
  (forall p,
      In p (map fst (PostListView_get_queryset now db))
      <-> In p (posts db) /\ is_published p = true /\ (pub_date p < now)%Z /\
          exists c,
            post_category db p = Some c /\ category_is_published c = true)
  /\
  (forall category p,
      In p (map fst (CategoryListlView_get_queryset category now db))
      <-> In p (posts db) /\ is_published p = true /\ (pub_date p < now)%Z /\
          exists c,
            post_category db p = Some c /\ category_is_published c = true /\
            slug c = slug category).
Proof.
  split.
  - intros p. apply In_map_fst_PostListView_get_queryset.
  - intros category p. unfold CategoryListlView_get_queryset.
    rewrite in_map_iff. split.
    + intros ([q n] & Heq & Hq). simpl in Heq. subst q.
      apply filter_In in Hq. destruct Hq as [Hq Hslug].
      assert (Hp : In p (map fst (PostListView_get_queryset now db)))
        by (apply in_map_iff; now exists (p, n)).
      apply In_map_fst_PostListView_get_queryset in Hp.
      destruct Hp as (Hp & Hpub & Hdate & c & Hc & Hcat).
      repeat split; trivial. exists c. repeat split; trivial.
      unfold category__slug in Hslug. simpl in Hslug. rewrite Hc in Hslug.
      now apply String.eqb_eq.
    + intros (Hp & Hpub & Hdate & c & Hc & Hcat & Hslug).
      assert (Hin : In p (map fst (PostListView_get_queryset now db))).
      { apply In_map_fst_PostListView_get_queryset.
        repeat split; trivial. now exists c. }
      apply in_map_iff in Hin. destruct Hin as ([q n] & Heq & Hq).
      simpl in Heq. subst q. exists (p, n). split; [reflexivity | ].
      apply filter_In. split; [exact Hq | ].
      unfold category__slug. simpl. rewrite Hc. now apply String.eqb_eq.
Qed.

(** C7. The home feed run on the failing input: post 7 is stored,
    published, sits in a published category and is dated exactly at the
    current time, yet the feed does not list it. *)
Lemma post_dated_now_is_not_listed :
  In Site.post7 (posts Site.db)
  /\ is_published Site.post7 = true
  /\ category__is_published Site.db Site.post7 = true
  /\ pub_date Site.post7 = Site.now
  /\ ~ In Site.post7 (map fst (PostListView_get_queryset Site.now Site.db)).
Proof.
  repeat split; try reflexivity.
  - simpl. tauto.
  - intros Hin. apply In_map_fst_PostListView_get_queryset in Hin.
    destruct Hin as (_ & _ & Hdate & _). unfold Site.now in Hdate.
    simpl in Hdate. lia.
Qed.

(** The detail view draws the line one instant later: the same post,
    at the same time, is served to an anonymous visitor. *)
Lemma post_dated_now_is_served_by_detail_view :
  PostDetailView_dispatch (Site.request GET AnonymousUser) 7 Site.now Site.db
  = ok (TemplateResponse "blog/detail.html" (DetailContext Site.post7 []))
       Site.db.
Proof. reflexivity. Qed.

(** The profile feed does not depend on who asks: the filtered queryset
    of the non-owner branch is never used. *)
Lemma ProfileListView_get_queryset_unfiltered request username now db :
  ProfileListView_get_queryset request username now db
  = filter (fun row => author__username db username (fst row))
           (PostListMixin_get_queryset db).
Proof. reflexivity. Qed.

Lemma In_map_fst_ProfileListView_get_queryset request username now db p :
  In p (map fst (ProfileListView_get_queryset request username now db))
  <-> In p (posts db) /\ author__username db username p = true.
Proof.
  rewrite ProfileListView_get_queryset_unfiltered, in_map_iff. split.
  - intros ([q n] & Heq & Hq). simpl in Heq. subst q.
    apply filter_In in Hq. destruct Hq as [Hq Hauthor].
    apply In_PostListMixin_get_queryset in Hq. tauto.
  - intros (Hp & Hauthor).
    exists (p, List.length (post_comments db p)). split; [reflexivity | ].
    apply filter_In. split; [ | exact Hauthor].
    now apply In_PostListMixin_get_queryset.
Qed.

(** C2. The profile feed run on the failing request: Alice, and likewise
    an anonymous visitor, asks for Bob's profile.  The page lists Bob's
    draft (post 6), his post without a category (post 8) and his
    future-dated post in an unpublished category (post 9) next to his
    published post 5. *)
Theorem profile_feed_shows_drafts_to_others :
  is_published Site.post6 = false
  /\ (Site.now < pub_date Site.post9)%Z
  /\ ProfileListView (Site.request GET (AuthUser Site.alice)) "bob"
       Site.now Site.db
     = ok (TemplateResponse "blog/profile.html"
             (ListContext
                [(Site.post9, 0); (Site.post5, 1); (Site.post6, 0);
                 (Site.post8, 0)]
                None (Some Site.bob))) Site.db
  /\ ProfileListView (Site.request GET AnonymousUser) "bob"
       Site.now Site.db
     = ProfileListView (Site.request GET (AuthUser Site.alice)) "bob"
         Site.now Site.db.
Proof.
  repeat split; reflexivity.
Qed.

(* ================================================================== *)
(** ** Pagination *)

Lemma num_pages_pos {A} (l : list A) : 1 <= num_pages l paginate_by.
Proof.
  unfold num_pages, paginate_by.
  apply Nat.div_le_lower_bound; lia.
Qed.


Lemma slice_is_nth_page {A} (l : list A) (n : nat) :
  let bottom := (n - 1) * paginate_by in
  let top := bottom + paginate_by in
  slice l bottom (if List.length l <=? top then List.length l else top)
  = nth_page l n.
Proof.
  intros bottom top. unfold slice, nth_page. fold bottom.
  destruct (List.length l <=? top) eqn:Hlen.
  - apply Nat.leb_le in Hlen.
    rewrite !firstn_all2; trivial; rewrite length_skipn; lia.
  - f_equal. lia.
Qed.

Lemma Paginator_page_in_range {A} (l : list A) (n : nat) db :
  1 <= n <= num_pages l paginate_by ->
  Paginator_page l paginate_by (Z.of_nat n) db = ok (nth_page l n) db.
Proof.
  intros [Hlo Hhi]. unfold Paginator_page, validate_number.
  destruct (Z.of_nat n <? 1)%Z eqn:H1; [apply Z.ltb_lt in H1; lia | ].
  destruct (Z.of_nat (num_pages l paginate_by) <? Z.of_nat n)%Z eqn:H2;
    [apply Z.ltb_lt in H2; lia | ].
  unfold bind, ret, ok. rewrite Nat2Z.id.
  now rewrite slice_is_nth_page.
Qed.

Lemma Paginator_page_out_of_range {A} (l : list A) (number : Z) db :
  (number < 1 \/ Z.of_nat (num_pages l paginate_by) < number)%Z ->
  Paginator_page l paginate_by number db = failed Http404 db.
Proof.
  intros Hout. unfold Paginator_page, validate_number.
  destruct (number <? 1)%Z eqn:H1; [reflexivity | ].
  apply Z.ltb_ge in H1.
  destruct (Z.of_nat (num_pages l paginate_by) <? number)%Z eqn:H2.
  - pose proof (num_pages_pos l) as Hpos. apply Z.ltb_lt in H2.
    destruct (number =? 1)%Z eqn:H3; [apply Z.eqb_eq in H3; lia | ].
    reflexivity.
  - apply Z.ltb_ge in H2. lia.
Qed.




Lemma PostListView_GET ru path page now db :
  PostListView (mkRequest GET ru path page) now db
  = bind (paginate_queryset (PostListView_get_queryset now db) paginate_by
            (mkRequest GET ru path page))
         (fun page_obj =>
            ret (TemplateResponse "blog/index.html"
                   (ListContext page_obj None None))) db.
Proof.
  unfold PostListView, View_dispatch, ListView_get, bind, query, ret. simpl.
  now destruct (paginate_queryset _ _ _ db) as [[e | page_obj] db'].
Qed.

Lemma PostListView_get_queryset_sorted now db :
  StronglySorted pub_date_desc (PostListView_get_queryset now db).
Proof.
  unfold PostListView_get_queryset, PostListMixin_get_queryset.
  apply StronglySorted_filter, order_by_pub_date_desc_sorted.
Qed.



(* ================================================================== *)
(** ** Creating a comment *)

Lemma le_fold_max (k : nat) (l : list nat) :
  In k l -> k <= fold_right Nat.max 0 l.
Proof.
  induction l as [ | x l IH]; simpl; [tauto | ].
  intros [-> | Hin]; [lia | ]. specialize (IH Hin). lia.
Qed.

Lemma next_comment_pk_fresh db :
  ~ In (next_comment_pk db) (map comment_pk (comments db)).
Proof.
  unfold next_comment_pk. intros Hin. apply le_fold_max in Hin. lia.
Qed.

(** What the view does once the parent post is found, for a valid POST
    by an authenticated user. *)
Lemma CommentCreateView_valid_post
    CommentForm_is_valid request post_id data now db p u :
  find (fun q => post_pk q =? post_id) (posts db) = Some p ->
  user request = AuthUser u ->
  method request = POST ->
  CommentForm_is_valid data = true ->
  CommentCreateView CommentForm_is_valid request post_id data now db
  = ok (HttpResponseRedirect (url_post_detail (post_pk p)))
       (with_comments db
          (comments db ++
           [mkComment (next_comment_pk db) (cf_text data) now
                      (user_pk u) (post_pk p)])).
Proof.
  intros Hfind Hu Hpost Hvalid. unfold CommentCreateView.
  rewrite (bind_ok _ _ _ _ (get_object_or_404_found _ _ _ _ Hfind)).
  rewrite (LoginRequiredMixin_dispatch_authenticated _ _ _ Hu).
  unfold View_dispatch. rewrite Hpost.
  unfold CommentCreateView_post. rewrite Hvalid.
  unfold CommentCreateView_form_valid. now rewrite Hu.
Qed.

(** C9. A valid comment submitted by an authenticated user to an
    existing post adds exactly one row to the comment table, under a key
    no other comment has, with the submitting user as author and the
    addressed post as parent; every other table and every earlier
    comment stay as they were, and the answer is a redirect to the
    detail route of that post. *)
Theorem comment_creation_persists_one_comment
    (CommentForm_is_valid : CommentFormData -> bool)
    (request : HttpRequest) (u : User) (post_id : nat) (p : Post)
    (data : CommentFormData) (now : Z) (db : DB) :
  user request = AuthUser u ->
  method request = POST ->
  CommentForm_is_valid data = true ->
  find (fun q => post_pk q =? post_id) (posts db) = Some p ->
  exists c,
    CommentCreateView CommentForm_is_valid request post_id data now db
    = ok (HttpResponseRedirect (url_post_detail post_id))
         (with_comments db (comments db ++ [c]))
    /\ comment_author_id c = user_pk u
    /\ comment_post_id c = post_id
    /\ comment_text c = cf_text data
    /\ ~ In (comment_pk c) (map comment_pk (comments db)).
Proof.
  intros Hu Hpost Hvalid Hfind.
  exists (mkComment (next_comment_pk db) (cf_text data) now
                    (user_pk u) post_id).
  rewrite (CommentCreateView_valid_post _ _ _ _ _ _ _ _ Hfind Hu Hpost Hvalid).
  rewrite (find_pk_eq _ _ _ Hfind). simpl.
  repeat split. apply next_comment_pk_fresh.
Qed.

Lemma comment_creation_persists_one_comment_witness :
  exists c,
    CommentCreateView Site.CommentForm_is_valid
      (Site.request POST (AuthUser Site.alice)) 5 Site.hello Site.now Site.db
    = ok (HttpResponseRedirect (url_post_detail 5))
         (with_comments Site.db (comments Site.db ++ [c]))
    /\ comment_author_id c = user_pk Site.alice
    /\ comment_post_id c = 5
    /\ comment_text c = cf_text Site.hello
    /\ ~ In (comment_pk c) (map comment_pk (comments Site.db)).
Proof.
  apply (comment_creation_persists_one_comment Site.CommentForm_is_valid
           (Site.request POST (AuthUser Site.alice)) Site.alice 5 Site.post5
           Site.hello Site.now Site.db);
    reflexivity.
Defined.

(** The view fails with not-found exactly when the addressed post is
    missing. *)
Lemma CommentCreateView_404_iff
    CommentForm_is_valid request post_id data now db :
  fst (CommentCreateView CommentForm_is_valid request post_id data now db)
  = inl Http404
  <-> find (fun q => post_pk q =? post_id) (posts db) = None.
Proof.
  unfold CommentCreateView.
  destruct (find (fun q => post_pk q =? post_id) (posts db)) as [p | ] eqn:Hfind.
  - rewrite (bind_ok _ _ _ _ (get_object_or_404_found _ _ _ _ Hfind)).
    split; [ | discriminate]. intros Hrun. exfalso. revert Hrun.
    unfold LoginRequiredMixin_dispatch, handle_no_permission, View_dispatch,
      CommentCreateView_post, CommentCreateView_form_valid, bind, execute,
      ret, raise.
    destruct (user request) as [ | u]; simpl; [discriminate | ].
    destruct (method request); simpl; try discriminate.
    destruct (CommentForm_is_valid data); simpl; discriminate.
  - rewrite (bind_failed _ _ _ _ (get_object_or_404_missing _ _ _ Hfind)).
    split; reflexivity.
Qed.

(** C10. Creating a comment looks only at whether the parent post
    exists.  The view fails with not-found exactly when no post has the
    given key; for a post that exists, with nothing assumed of its
    author, its publication flag, its date or its category, a valid
    submission by an authenticated user stores the comment and redirects
    to the post. *)
Theorem comment_creation_checks_existence_only
    (CommentForm_is_valid : CommentFormData -> bool)
    (request : HttpRequest) (post_id : nat) (data : CommentFormData)
    (now : Z) (db : DB) :
  (fst (CommentCreateView CommentForm_is_valid request post_id data now db)
   = inl Http404
   <-> find (fun q => post_pk q =? post_id) (posts db) = None)
  /\
  (forall p u,
      find (fun q => post_pk q =? post_id) (posts db) = Some p ->
      user request = AuthUser u ->
      method request = POST ->
      CommentForm_is_valid data = true ->
      exists c,
        CommentCreateView CommentForm_is_valid request post_id data now db
        = ok (HttpResponseRedirect (url_post_detail post_id))
             (with_comments db (comments db ++ [c]))
        /\ comment_author_id c = user_pk u
        /\ comment_post_id c = post_id
        /\ comment_text c = cf_text data
        /\ ~ In (comment_pk c) (map comment_pk (comments db))).
Proof.
  split.
  - apply CommentCreateView_404_iff.
  - intros p u Hfind Hu Hpost Hvalid.
    exists (mkComment (next_comment_pk db) (cf_text data) now
                      (user_pk u) post_id).
    rewrite (CommentCreateView_valid_post _ _ _ _ _ _ _ _
               Hfind Hu Hpost Hvalid).
    rewrite (find_pk_eq _ _ _ Hfind). simpl.
    repeat split. apply next_comment_pk_fresh.
Qed.

Lemma comment_creation_checks_existence_only_witness :
  author_id Site.post9 <> user_pk Site.alice
  /\ (Site.now < pub_date Site.post9)%Z
  /\ category__is_published Site.db Site.post9 = false
  /\ exists c,
       CommentCreateView Site.CommentForm_is_valid
         (Site.request POST (AuthUser Site.alice)) 9 Site.hello Site.now
         Site.db
       = ok (HttpResponseRedirect (url_post_detail 9))
            (with_comments Site.db (comments Site.db ++ [c]))
       /\ comment_author_id c = user_pk Site.alice
       /\ comment_post_id c = 9
       /\ comment_text c = cf_text Site.hello
       /\ ~ In (comment_pk c) (map comment_pk (comments Site.db)).
Proof.
  split; [discriminate | split; [reflexivity | split; [reflexivity | ]]].
  apply (proj2 (comment_creation_checks_existence_only
                  Site.CommentForm_is_valid
                  (Site.request POST (AuthUser Site.alice)) 9 Site.hello
                  Site.now Site.db) Site.post9 Site.alice);
    reflexivity.
Defined.

(* ================================================================== *)
(** ** Lookups by key after a write *)

Lemma find_key_map {A} (key : A -> nat) (f : A -> A) (k : nat) (l : list A) :
  (forall a, key (f a) = key a) ->
  find (fun a => key a =? k) (map f l)
  = option_map f (find (fun a => key a =? k) l).
Proof.
  intros Hkey. induction l as [ | a l IH]; simpl; [reflexivity | ].
  rewrite Hkey. now destruct (key a =? k).
Qed.

Lemma find_key_filter_other {A} (key : A -> nat) (j k : nat) (l : list A) :
  k <> j ->
  find (fun a => key a =? k) (filter (fun a => negb (key a =? j)) l)
  = find (fun a => key a =? k) l.
Proof.
  intros Hne. induction l as [ | a l IH]; simpl; [reflexivity | ].
  destruct (key a =? j) eqn:Hj; simpl.
  - apply Nat.eqb_eq in Hj.
    destruct (key a =? k) eqn:Hk; [apply Nat.eqb_eq in Hk; lia | exact IH].
  - now rewrite IH.
Qed.

Lemma find_key_filter_same {A} (key : A -> nat) (j : nat) (l : list A) :
  find (fun a => key a =? j) (filter (fun a => negb (key a =? j)) l) = None.
Proof.
  induction l as [ | a l IH]; simpl; [reflexivity | ].
  destruct (key a =? j) eqn:Hj; simpl; [exact IH | now rewrite Hj].
Qed.



Lemma pk_eqb_true_iff (a : option nat) (b : nat) :
  pk_eqb a (Some b) = true <-> a = Some b.
Proof.
  destruct a as [x | ]; simpl.
  - rewrite Nat.eqb_eq. split; congruence.
  - split; discriminate.
Qed.

Lemma pk_eqb_sym (a b : option nat) : pk_eqb a b = pk_eqb b a.
Proof.
  destruct a, b; simpl; trivial. apply Nat.eqb_sym.
Qed.


(* ================================================================== *)
(** ** The detail view, beyond its guard *)

Lemma PostDetailView_get_found post_id db p :
  lookup_post db post_id = Some p ->
  PostDetailView_get post_id db
  = ok (TemplateResponse "blog/detail.html"
          (DetailContext p (post_comments db p))) db.
Proof.
  intros Hfind. unfold lookup_post in Hfind. run_detail. now rewrite Hfind.
Qed.

(** The dispatch of the detail view, once the post and the value of its
    condition are known. *)
Lemma PostDetailView_dispatch_cases request post_id now db p hidden :
  lookup_post db post_id = Some p ->
  PostDetailView_hidden p now db = ok hidden db ->
  PostDetailView_dispatch request post_id now db
  = if hidden && negb (pk_eqb (request_user_pk (user request))
                              (Some (author_id p)))
    then failed Http404 db
    else View_dispatch request (Some (PostDetailView_get post_id)) None db.
Proof.
  intros Hfind Hrun. unfold PostDetailView_dispatch.
  rewrite (bind_ok _ _ _ _ (get_object_or_404_found _ _ _ _ Hfind)).
  rewrite (bind_ok _ _ _ _ Hrun).
  destruct hidden; simpl; [ | reflexivity].
  now destruct (pk_eqb _ _).
Qed.

(** X1. For a post that has a category, a GET of the detail page shows
    the post, with exactly the comments attached to it, when the post
    passes the visibility rule or the viewer is its author; otherwise
    the answer is not-found.  The store is never changed. *)
Theorem PostDetailView_shows_visible_or_own
    (request : HttpRequest) (post_id : nat) (now : Z) (db : DB)
    (p : Post) (c : Category) :
  lookup_post db post_id = Some p ->
  post_category db p = Some c ->
  method request = GET ->
  (publicly_visible db now p \/ is_author_of request p ->
   PostDetailView_dispatch request post_id now db
   = ok (TemplateResponse "blog/detail.html"
           (DetailContext p
              (filter (fun x => comment_post_id x =? post_id) (comments db))))
        db)
  /\
  (~ publicly_visible db now p -> ~ is_author_of request p ->
   PostDetailView_dispatch request post_id now db = failed Http404 db).
Proof.
  intros Hfind Hcat Hget.
  destruct (PostDetailView_hidden_with_category db now p c Hcat)
    as (hidden & Hrun & Hiff).
  rewrite (PostDetailView_dispatch_cases _ _ _ _ _ _ Hfind Hrun).
  assert (Hshow :
    View_dispatch request (Some (PostDetailView_get post_id)) None db
    = ok (TemplateResponse "blog/detail.html"
            (DetailContext p
               (filter (fun x => comment_post_id x =? post_id) (comments db))))
         db).
  { unfold View_dispatch. rewrite Hget.
    rewrite (PostDetailView_get_found _ _ _ Hfind).
    unfold post_comments. now rewrite (find_pk_eq _ _ _ Hfind). }
  split.
  - intros [Hvisible | Hauthor].
    + apply Hiff in Hvisible. subst hidden. exact Hshow.
    + apply pk_eqb_true_iff in Hauthor. rewrite Hauthor.
      now rewrite andb_false_r.
  - intros Hhidden Hother.
    destruct hidden; [ | exfalso; now apply Hhidden, Hiff].
    destruct (pk_eqb _ _) eqn:Hpk; [ | reflexivity].
    apply pk_eqb_true_iff in Hpk. contradiction.
Qed.

Lemma PostDetailView_shows_visible_or_own_witness :
  PostDetailView_dispatch (Site.request GET AnonymousUser) 5 Site.now Site.db2
  = ok (TemplateResponse "blog/detail.html"
          (DetailContext Site.post5 [Site.comment7; Site.comment8])) Site.db2
  /\
  PostDetailView_dispatch (Site.request GET (AuthUser Site.bob)) 6
    Site.now Site.db2
  = ok (TemplateResponse "blog/detail.html" (DetailContext Site.post6 []))
       Site.db2
  /\
  PostDetailView_dispatch (Site.request GET (AuthUser Site.alice)) 6
    Site.now Site.db2
  = failed Http404 Site.db2.
Proof.
  split; [ | split].
  - apply (proj1 (PostDetailView_shows_visible_or_own
                    (Site.request GET AnonymousUser) 5 Site.now Site.db2
                    Site.post5 Site.travel eq_refl eq_refl eq_refl)).
    left. repeat split; [discriminate | ]. now exists Site.travel.
  - apply (proj1 (PostDetailView_shows_visible_or_own
                    (Site.request GET (AuthUser Site.bob)) 6 Site.now Site.db2
                    Site.post6 Site.travel eq_refl eq_refl eq_refl)).
    right. reflexivity.
  - apply (proj2 (PostDetailView_shows_visible_or_own
                    (Site.request GET (AuthUser Site.alice)) 6 Site.now
                    Site.db2 Site.post6 Site.travel eq_refl eq_refl eq_refl)).
    + intros (Hpub & _). discriminate.
    + discriminate.
Defined.

(* ================================================================== *)
(** ** Views that only read *)

Lemma read_only_ret {A} (a : A) : read_only (ret a).
Proof. now intros db. Qed.

Lemma read_only_raise {A} (e : Exception) : read_only (@raise A e).
Proof. now intros db. Qed.

Lemma read_only_query {A} (f : DB -> A) : read_only (query f).
Proof. now intros db. Qed.

Lemma read_only_bind {A B} (m : View A) (k : A -> View B) :
  read_only m -> (forall a, read_only (k a)) -> read_only (bind m k).
Proof.
  intros Hm Hk db. unfold bind. specialize (Hm db).
  destruct (m db) as [[e | a] db']; simpl in *; subst db'; [reflexivity | ].
  apply Hk.
Qed.

Lemma read_only_get_object_or_404 {A} (table : DB -> list A) lookup :
  read_only (get_object_or_404 table lookup).
Proof.
  apply read_only_bind; [apply read_only_query | ].
  intros [a | ]; [apply read_only_ret | apply read_only_raise].
Qed.

Lemma read_only_View_dispatch request get post :
  (forall h, get = Some h -> read_only h) ->
  (forall h, post = Some h -> read_only h) ->
  read_only (View_dispatch request get post).
Proof.
  intros Hget Hpost. unfold View_dispatch.
  destruct (method request).
  - destruct get as [h | ]; [now apply Hget | apply read_only_ret].
  - destruct post as [h | ]; [now apply Hpost | apply read_only_ret].
  - apply read_only_ret.
Qed.

Lemma read_only_LoginRequiredMixin_dispatch request super_dispatch :
  read_only super_dispatch ->
  read_only (LoginRequiredMixin_dispatch request super_dispatch).
Proof.
  intros Hsuper. unfold LoginRequiredMixin_dispatch, handle_no_permission.
  destruct (is_authenticated (user request)); simpl; [exact Hsuper | ].
  apply read_only_ret.
Qed.

Lemma read_only_paginate_queryset {A} (qs : list A) page_size request :
  read_only (paginate_queryset qs page_size request).
Proof.
  assert (Hpage : forall n, read_only (Paginator_page qs page_size n)).
  { intros n. unfold Paginator_page. apply read_only_bind.
    - unfold validate_number.
      destruct (n <? 1)%Z; [apply read_only_raise | ].
      destruct (_ <? n)%Z; [ | apply read_only_ret].
      destruct (_ && _); [apply read_only_ret | apply read_only_raise].
    - intros k. apply read_only_ret. }
  unfold paginate_queryset. destruct (page request); trivial.
  apply read_only_raise.
Qed.

Lemma read_only_ListView_get request get_queryset template_name extra :
  (forall page_obj, read_only (extra page_obj)) ->
  read_only (ListView_get request get_queryset template_name extra).
Proof.
  intros Hextra. unfold ListView_get.
  apply read_only_bind; [apply read_only_query | intros object_list].
  apply read_only_bind; [apply read_only_paginate_queryset | intros page_obj].
  apply read_only_bind; [apply Hextra | intros context].
  apply read_only_ret.
Qed.

Ltac read_only_handlers :=
  apply read_only_View_dispatch; intros h Hh; inversion Hh; subst h; clear Hh.

(** X2. The detail view and the three feeds never write to the store:
    whatever the request, and whether they answer or raise, the store
    they leave is the store they were given. *)
Theorem reading_views_never_write
    (request : HttpRequest) (now : Z) :
  (forall post_id, read_only (PostDetailView_dispatch request post_id now))
  /\ read_only (PostListView request now)
  /\ (forall category_slug,
         read_only (CategoryListlView request category_slug now))
  /\ (forall username, read_only (ProfileListView request username now)).
Proof.
  repeat split.
  - intros post_id. unfold PostDetailView_dispatch.
    apply read_only_bind; [apply read_only_get_object_or_404 | intros p].
    apply read_only_bind.
    { unfold PostDetailView_hidden.
      destruct (negb (is_published p)); [apply read_only_ret | ].
      destruct (pub_date p >? now)%Z; [apply read_only_ret | ].
      apply read_only_bind; [apply read_only_query | ].
      intros [c | ]; [apply read_only_ret | apply read_only_raise]. }
    intros hidden. apply read_only_bind.
    { destruct hidden; [ | apply read_only_ret].
      destruct (negb _); [apply read_only_raise | apply read_only_ret]. }
    intros _. read_only_handlers.
    unfold PostDetailView_get.
    apply read_only_bind; [apply read_only_get_object_or_404 | intros q].
    apply read_only_bind; [ | intros ctx; apply read_only_ret].
    unfold PostDetailView_get_context_data.
    apply read_only_bind; [apply read_only_query | ].
    intros cs. apply read_only_ret.
  - unfold PostListView. read_only_handlers.
    apply read_only_ListView_get. intros page_obj. apply read_only_ret.
  - intros category_slug. unfold CategoryListlView.
    apply read_only_bind; [apply read_only_get_object_or_404 | intros c].
    read_only_handlers.
    apply read_only_ListView_get. intros page_obj. apply read_only_ret.
  - intros username. unfold ProfileListView. read_only_handlers.
    apply read_only_ListView_get. intros page_obj.
    apply read_only_bind; [apply read_only_get_object_or_404 | ].
    intros u. apply read_only_ret.
Qed.

(* ================================================================== *)
(** ** Editing and deleting: missing objects and the author's path *)

Lemma IsAuthorMixin_dispatch_missing {A} `{Authored A}
    (get_object : View A) request super_dispatch db e :
  get_object db = failed e db ->
  IsAuthorMixin_dispatch get_object request super_dispatch db = failed e db.
Proof.
  intros Hget. unfold IsAuthorMixin_dispatch. now apply bind_failed.
Qed.

Lemma author_pk_eqb (request : HttpRequest) (u : User) (k : nat) :
  user request = AuthUser u -> k = user_pk u ->
  pk_eqb (Some k) (request_user_pk (user request)) = true.
Proof. intros -> ->. simpl. apply Nat.eqb_refl. Qed.

(** For the author the post views reduce to the handler of the request's
    method. *)
Lemma PostUpdateView_author
    PostForm_is_valid PostForm_post_clean request u post_id p data db :
  user request = AuthUser u ->
  lookup_post db post_id = Some p ->
  author_id p = user_pk u ->
  PostUpdateView PostForm_is_valid PostForm_post_clean request
    post_id data db
  = View_dispatch request
      (Some (PostUpdateView_get post_id))
      (Some (PostUpdateView_post PostForm_is_valid PostForm_post_clean
               post_id data)) db.
Proof.
  intros Hu Hfind Hauthor. unfold PostUpdateView.
  rewrite (IsAuthorMixin_dispatch_author (Post_get_object post_id) _ _ _ p).
  - now rewrite (LoginRequiredMixin_dispatch_authenticated _ _ _ Hu).
  - now apply get_object_or_404_found.
  - now apply (author_pk_eqb request u).
Qed.

Lemma PostDeleteView_author request u post_id p db :
  user request = AuthUser u ->
  lookup_post db post_id = Some p ->
  author_id p = user_pk u ->
  PostDeleteView request post_id db
  = View_dispatch request
      (Some (PostDeleteView_get post_id))
      (Some (PostDeleteView_post request post_id)) db.
Proof.
  intros Hu Hfind Hauthor. unfold PostDeleteView.
  rewrite (IsAuthorMixin_dispatch_author (Post_get_object post_id) _ _ _ p).
  - now rewrite (LoginRequiredMixin_dispatch_authenticated _ _ _ Hu).
  - now apply get_object_or_404_found.
  - now apply (author_pk_eqb request u).
Qed.

Lemma edit_or_delete_missing_comment
    CommentForm_is_valid request u post_id comment_id data db :
  user request = AuthUser u ->
  lookup_comment db comment_id = None ->
  CommentUpdateView CommentForm_is_valid request post_id comment_id data db
  = failed Http404 db
  /\ CommentDeleteView request post_id comment_id db = failed Http404 db.
Proof.
  intros Hu Hfind.
  pose proof (get_object_or_404_missing comments _ db Hfind) as Hget.
  split;
    [unfold CommentUpdateView | unfold CommentDeleteView];
    rewrite (LoginRequiredMixin_dispatch_authenticated _ _ _ Hu);
    exact (IsAuthorMixin_dispatch_missing (Comment_get_object comment_id)
             _ _ _ _ Hget).
Qed.

(** X3. An edit or delete request for a post that does not exist is
    answered not-found for every requester, the anonymous one included:
    the author guard looks the post up before the login check runs.  For
    a comment that does not exist an authenticated requester gets
    not-found as well.  Nothing is written. *)
Theorem edit_or_delete_of_missing_object_is_not_found
    (PostForm_is_valid : DB -> PostFormData -> bool)
    (PostForm_post_clean : DB -> PostFormData -> Post -> Post)
    (CommentForm_is_valid : CommentFormData -> bool)
    (request : HttpRequest) (db : DB) :
  (forall post_id data,
      lookup_post db post_id = None ->
      PostUpdateView PostForm_is_valid PostForm_post_clean request
        post_id data db
      = failed Http404 db
      /\ PostDeleteView request post_id db = failed Http404 db)
  /\
  (forall u post_id comment_id data,
      user request = AuthUser u ->
      lookup_comment db comment_id = None ->
      CommentUpdateView CommentForm_is_valid request post_id comment_id data db
      = failed Http404 db
      /\ CommentDeleteView request post_id comment_id db = failed Http404 db).
Proof.
  split.
  - intros post_id data Hfind.
    pose proof (get_object_or_404_missing posts _ db Hfind) as Hget.
    split;
      [unfold PostUpdateView | unfold PostDeleteView];
      exact (IsAuthorMixin_dispatch_missing (Post_get_object post_id)
               _ _ _ _ Hget).
  - intros u post_id comment_id data Hu Hfind.
    now apply (edit_or_delete_missing_comment _ _ u).
Qed.

Lemma edit_or_delete_of_missing_object_is_not_found_witness :
  PostUpdateView Site.PostForm_is_valid Site.PostForm_post_clean
    (Site.request GET AnonymousUser)
    42 Site.retitle Site.db
  = failed Http404 Site.db
  /\
  CommentDeleteView (Site.request POST (AuthUser Site.bob)) 5 42 Site.db
  = failed Http404 Site.db.
Proof.
  destruct (edit_or_delete_of_missing_object_is_not_found
              Site.PostForm_is_valid Site.PostForm_post_clean
              Site.CommentForm_is_valid
              (Site.request GET AnonymousUser) Site.db) as [Hpost _].
  destruct (edit_or_delete_of_missing_object_is_not_found
              Site.PostForm_is_valid Site.PostForm_post_clean
              Site.CommentForm_is_valid
              (Site.request POST (AuthUser Site.bob)) Site.db)
    as [_ Hcomment].
  split.
  - apply (Hpost 42 Site.retitle). reflexivity.
  - apply (Hcomment Site.bob 5 42 Site.hello); reflexivity.
Defined.

Lemma lookup_post_after_save db p saved k :
  post_pk saved = post_pk p ->
  find (fun q => post_pk q =? k)
    (map (fun q => if post_pk q =? post_pk p then saved else q) (posts db))
  = match lookup_post db k with
    | Some q => Some (if post_pk q =? post_pk p then saved else q)
    | None => None
    end.
Proof.
  intros Hpk. unfold lookup_post.
  rewrite (find_key_map post_pk).
  - now destruct (find _ (posts db)).
  - intros q. destruct (post_pk q =? post_pk p) eqn:Hq; [ | reflexivity].
    apply Nat.eqb_eq in Hq. congruence.
Qed.

(** X4. A valid POST to the edit view by the post's author stores the
    submitted fields under the same key and with the same author,
    leaves every other post, every comment, user and category as they
    were, and redirects to the detail route of the post. *)
Theorem PostUpdateView_author_saves
    (PostForm_is_valid : DB -> PostFormData -> bool)
    (PostForm_post_clean : DB -> PostFormData -> Post -> Post)
    (request : HttpRequest) (u : User) (post_id : nat) (p : Post)
    (data : PostFormData) (db : DB) :
  user request = AuthUser u ->
  lookup_post db post_id = Some p ->
  author_id p = user_pk u ->
  method request = POST ->
  PostForm_is_valid db data = true ->
  exists db',
    PostUpdateView PostForm_is_valid PostForm_post_clean request
      post_id data db
    = ok (HttpResponseRedirect (url_post_detail post_id)) db'
    /\ lookup_post db' post_id
       = Some (mkPost post_id (pf_title data) (pf_text data)
                 (pf_pub_date data) (pf_is_published data) (author_id p)
                 (pf_category data) (pf_location data))
    /\ (forall k, k <> post_id -> lookup_post db' k = lookup_post db k)
    /\ List.length (posts db') = List.length (posts db)
    /\ comments db' = comments db
    /\ users db' = users db
    /\ categories db' = categories db.
Proof.
  intros Hu Hfind Hauthor Hpost Hvalid.
  pose proof (find_pk_eq _ _ _ Hfind) as Hpk.
  set (saved := mkPost (post_pk p) (pf_title data) (pf_text data)
                  (pf_pub_date data) (pf_is_published data) (author_id p)
                  (pf_category data) (pf_location data)).
  set (db' := with_posts db
                (map (fun q => if post_pk q =? post_pk p then saved else q)
                     (posts db))).
  assert (Hlookup : forall k,
             lookup_post db' k
             = match lookup_post db k with
               | Some q => Some (if post_pk q =? post_pk p then saved else q)
               | None => None
               end).
  { intros k. apply (lookup_post_after_save db p saved k). reflexivity. }
  exists db'.
  rewrite (PostUpdateView_author _ _ _ _ _ _ _ _ Hu Hfind Hauthor).
  unfold View_dispatch. rewrite Hpost. unfold PostUpdateView_post.
  rewrite (bind_ok _ _ _ _ (get_object_or_404_found _ _ _ _ Hfind)).
  unfold bind at 1. unfold query at 1. rewrite Hvalid.
  unfold bind at 1. unfold PostForm_save, execute. fold saved. fold db'.
  assert (Hsaved : lookup_post db' post_id = Some saved).
  { rewrite Hlookup, Hfind. now rewrite Nat.eqb_refl. }
  assert (Hurl : PostUpdateView_get_success_url post_id db'
                 = ok (url_post_detail post_id) db').
  { unfold PostUpdateView_get_success_url.
    rewrite (bind_ok _ _ _ saved); [ | now apply get_object_or_404_found].
    unfold ret, ok. simpl. now rewrite Hpk. }
  rewrite (bind_ok _ _ _ _ Hurl). unfold ret, ok.
  repeat split.
  - rewrite Hsaved. unfold saved. now rewrite Hpk.
  - intros k Hk. rewrite Hlookup.
    destruct (lookup_post db k) as [q | ] eqn:Hq; [ | reflexivity].
    pose proof (find_pk_eq _ _ _ Hq) as Hqk.
    destruct (post_pk q =? post_pk p) eqn:Heq; [ | reflexivity].
    apply Nat.eqb_eq in Heq. congruence.
  - unfold db'. simpl. apply length_map.
Qed.

Lemma PostUpdateView_author_saves_witness :
  exists db',
    PostUpdateView Site.PostForm_is_valid Site.PostForm_post_clean
      (Site.request POST (AuthUser Site.bob))
      6 Site.retitle Site.db2
    = ok (HttpResponseRedirect (url_post_detail 6)) db'
    /\ lookup_post db' 6
       = Some (mkPost 6 "Changed" "Changed." 0%Z true 2 None None)
    /\ (forall k, k <> 6 -> lookup_post db' k = lookup_post Site.db2 k)
    /\ List.length (posts db') = List.length (posts Site.db2)
    /\ comments db' = comments Site.db2
    /\ users db' = users Site.db2
    /\ categories db' = categories Site.db2.
Proof.
  apply (PostUpdateView_author_saves Site.PostForm_is_valid
           Site.PostForm_post_clean (Site.request POST (AuthUser Site.bob))
           Site.bob 6 Site.post6
           Site.retitle Site.db2);
    reflexivity.
Defined.

(** X5. When the post's author opens the edit page, or submits a form
    that does not validate, the edit page is rendered and nothing is
    stored.  On GET the page is given the stored post; after an invalid
    POST it is given the submitted data and the in-memory instance as
    the form's cleaning left it, while the stored post stays as it
    was. *)
Theorem PostUpdateView_author_without_valid_form
    (PostForm_is_valid : DB -> PostFormData -> bool)
    (PostForm_post_clean : DB -> PostFormData -> Post -> Post)
    (request : HttpRequest) (u : User) (post_id : nat) (p : Post)
    (data : PostFormData) (db : DB) :
  user request = AuthUser u ->
  lookup_post db post_id = Some p ->
  author_id p = user_pk u ->
  (method request = GET ->
   PostUpdateView PostForm_is_valid PostForm_post_clean request
     post_id data db
   = ok (TemplateResponse "blog/create.html" (PostFormContext p None)) db)
  /\
  (method request = POST ->
   PostForm_is_valid db data = false ->
   PostUpdateView PostForm_is_valid PostForm_post_clean request
     post_id data db
   = ok (TemplateResponse "blog/create.html"
           (PostFormContext (PostForm_post_clean db data p) (Some data))) db).
Proof.
  intros Hu Hfind Hauthor.
  rewrite (PostUpdateView_author _ _ _ _ _ _ _ _ Hu Hfind Hauthor).
  pose proof (get_object_or_404_found posts _ db p Hfind) as Hget.
  unfold View_dispatch. split.
  - intros ->. unfold PostUpdateView_get.
    now rewrite (bind_ok _ _ _ _ Hget).
  - intros -> Hinvalid. unfold PostUpdateView_post.
    rewrite (bind_ok _ _ _ _ Hget).
    unfold bind, query. now rewrite Hinvalid.
Qed.

Lemma PostUpdateView_author_without_valid_form_witness :
  PostUpdateView Site.PostForm_is_valid Site.PostForm_post_clean
    (Site.request POST (AuthUser Site.bob))
    5 (mkPostFormData "" "Body only." 0%Z true None None) Site.db
  = ok (TemplateResponse "blog/create.html"
          (PostFormContext
             (mkPost 5 "Lisbon" "Body only." 0%Z true 2 None None)
             (Some (mkPostFormData "" "Body only." 0%Z true None None))))
       Site.db
  /\ lookup_post Site.db 5 = Some Site.post5.
Proof.
  split; [ | reflexivity].
  apply (proj2 (PostUpdateView_author_without_valid_form
                  Site.PostForm_is_valid Site.PostForm_post_clean
                  (Site.request POST (AuthUser Site.bob)) Site.bob 5
                  Site.post5
                  (mkPostFormData "" "Body only." 0%Z true None None)
                  Site.db eq_refl eq_refl eq_refl));
    reflexivity.
Defined.

(** X6. A POST to the delete view by the post's author removes the post:
    its key no longer resolves, every other post resolves as before,
    every comment on another post is kept and none is added, and the
    answer is a redirect to the requester's own profile.  A GET by the
    author only shows the confirmation page. *)
Theorem PostDeleteView_author_deletes
    (request : HttpRequest) (u : User) (post_id : nat) (p : Post) (db : DB) :
  user request = AuthUser u ->
  lookup_post db post_id = Some p ->
  author_id p = user_pk u ->
  (method request = POST ->
   exists db',
     PostDeleteView request post_id db
     = ok (HttpResponseRedirect (url_profile (username u))) db'
     /\ lookup_post db' post_id = None
     /\ (forall k, k <> post_id -> lookup_post db' k = lookup_post db k)
     /\ (forall c, In c (comments db) -> comment_post_id c <> post_id ->
                   In c (comments db'))
     /\ (forall c, In c (comments db') -> In c (comments db))
     /\ users db' = users db
     /\ categories db' = categories db)
  /\
  (method request = GET ->
   PostDeleteView request post_id db
   = ok (TemplateResponse "blog/create.html" (PostFormContext p None)) db).
Proof.
  intros Hu Hfind Hauthor.
  rewrite (PostDeleteView_author _ _ _ _ _ Hu Hfind Hauthor).
  pose proof (get_object_or_404_found posts _ db p Hfind) as Hget.
  pose proof (find_pk_eq _ _ _ Hfind) as Hpk.
  unfold View_dispatch. split.
  - intros ->. unfold PostDeleteView_post.
    rewrite (bind_ok _ _ _ _ Hget).
    unfold Post_delete, bind, execute, ret, ok. rewrite Hu, Hpk. simpl.
    eexists. split; [reflexivity | ].
    unfold lookup_post. simpl. repeat split.
    + apply (find_key_filter_same post_pk).
    + intros k Hk. now apply (find_key_filter_other post_pk).
    + intros c Hin Hc. apply filter_In. split; [exact Hin | ].
      apply negb_true_iff. now apply Nat.eqb_neq.
    + intros c Hin. now apply filter_In in Hin.
  - intros ->. unfold PostDeleteView_get.
    now rewrite (bind_ok _ _ _ _ Hget).
Qed.

Lemma PostDeleteView_author_deletes_witness :
  exists db',
    PostDeleteView (Site.request POST (AuthUser Site.bob)) 5 Site.db2
    = ok (HttpResponseRedirect (url_profile "bob")) db'
    /\ lookup_post db' 5 = None
    /\ (forall k, k <> 5 -> lookup_post db' k = lookup_post Site.db2 k)
    /\ (forall c, In c (comments Site.db2) -> comment_post_id c <> 5 ->
                  In c (comments db'))
    /\ (forall c, In c (comments db') -> In c (comments Site.db2))
    /\ users db' = users Site.db2
    /\ categories db' = categories Site.db2.
Proof.
  apply (proj1 (PostDeleteView_author_deletes
                  (Site.request POST (AuthUser Site.bob)) Site.bob 5
                  Site.post5 Site.db2 eq_refl eq_refl eq_refl)).
  reflexivity.
Defined.

Lemma find_comment_pk_eq (comment_id : nat) (l : list Comment) (c : Comment) :
  find (fun q => comment_pk q =? comment_id) l = Some c -> comment_pk c = comment_id.
Proof.
  intros Hfind. apply find_some in Hfind. now apply Nat.eqb_eq.
Qed.

(** For the author the comment views reduce to [CommentMixin.dispatch]
    followed by the handler of the request's method. *)
Lemma CommentUpdateView_author
    CommentForm_is_valid request u post_id comment_id c data db :
  user request = AuthUser u ->
  lookup_comment db comment_id = Some c ->
  comment_author_id c = user_pk u ->
  CommentUpdateView CommentForm_is_valid request post_id comment_id data db
  = CommentMixin_dispatch post_id
      (View_dispatch request
         (Some (CommentUpdateView_get comment_id))
         (Some (CommentUpdateView_post CommentForm_is_valid comment_id data)))
      db.
Proof.
  intros Hu Hfind Hauthor. unfold CommentUpdateView.
  rewrite (LoginRequiredMixin_dispatch_authenticated _ _ _ Hu).
  apply (IsAuthorMixin_dispatch_author (Comment_get_object comment_id)
           _ _ _ c).
  - now apply get_object_or_404_found.
  - now apply (author_pk_eqb request u).
Qed.

Lemma CommentDeleteView_author request u post_id comment_id c db :
  user request = AuthUser u ->
  lookup_comment db comment_id = Some c ->
  comment_author_id c = user_pk u ->
  CommentDeleteView request post_id comment_id db
  = CommentMixin_dispatch post_id
      (View_dispatch request
         (Some (CommentDeleteView_get comment_id))
         (Some (CommentDeleteView_post comment_id)))
      db.
Proof.
  intros Hu Hfind Hauthor. unfold CommentDeleteView.
  rewrite (LoginRequiredMixin_dispatch_authenticated _ _ _ Hu).
  apply (IsAuthorMixin_dispatch_author (Comment_get_object comment_id)
           _ _ _ c).
  - now apply get_object_or_404_found.
  - now apply (author_pk_eqb request u).
Qed.

Lemma CommentMixin_dispatch_found post_id super_dispatch db p :
  lookup_post db post_id = Some p ->
  CommentMixin_dispatch post_id super_dispatch db = super_dispatch db.
Proof.
  intros Hfind. unfold CommentMixin_dispatch.
  now rewrite (bind_ok _ _ _ _ (get_object_or_404_found _ _ _ _ Hfind)).
Qed.

Lemma CommentMixin_dispatch_missing post_id super_dispatch db :
  lookup_post db post_id = None ->
  CommentMixin_dispatch post_id super_dispatch db = failed Http404 db.
Proof.
  intros Hfind. unfold CommentMixin_dispatch.
  now rewrite (bind_failed _ _ _ _ (get_object_or_404_missing _ _ _ Hfind)).
Qed.

(** X7. A valid POST to the comment edit view by the comment's author,
    under the URL of any post that exists, replaces the text of the
    comment and keeps its key, author, parent post and creation time;
    every other comment and every post stay as they were.  The redirect
    goes to the detail route of the comment's parent post, whichever
    post the URL named. *)
Theorem CommentUpdateView_author_saves
    (CommentForm_is_valid : CommentFormData -> bool)
    (request : HttpRequest) (u : User) (post_id comment_id : nat)
    (p : Post) (c : Comment) (data : CommentFormData) (db : DB) :
  user request = AuthUser u ->
  lookup_comment db comment_id = Some c ->
  comment_author_id c = user_pk u ->
  lookup_post db post_id = Some p ->
  method request = POST ->
  CommentForm_is_valid data = true ->
  exists db',
    CommentUpdateView CommentForm_is_valid request post_id comment_id data db
    = ok (HttpResponseRedirect (url_post_detail (comment_post_id c))) db'
    /\ lookup_comment db' comment_id
       = Some (mkComment comment_id (cf_text data) (created_at c)
                 (comment_author_id c) (comment_post_id c))
    /\ (forall k, k <> comment_id ->
                  lookup_comment db' k = lookup_comment db k)
    /\ List.length (comments db') = List.length (comments db)
    /\ posts db' = posts db
    /\ users db' = users db.
Proof.
  intros Hu Hfind Hauthor Hpost Hmethod Hvalid.
  pose proof (find_comment_pk_eq _ _ _ Hfind) as Hpk.
  set (saved := mkComment (comment_pk c) (cf_text data) (created_at c)
                  (comment_author_id c) (comment_post_id c)).
  set (db' := with_comments db
                (map (fun q => if comment_pk q =? comment_pk c
                               then saved else q)
                     (comments db))).
  assert (Hlookup : forall k,
             lookup_comment db' k
             = option_map (fun q => if comment_pk q =? comment_pk c
                                    then saved else q)
                 (lookup_comment db k)).
  { intros k. unfold lookup_comment, db'. simpl.
    apply (find_key_map comment_pk). intros q.
    destruct (comment_pk q =? comment_pk c) eqn:Hq; [ | reflexivity].
    apply Nat.eqb_eq in Hq. simpl. congruence. }
  assert (Hsaved : lookup_comment db' comment_id = Some saved).
  { rewrite Hlookup, Hfind. simpl. now rewrite Nat.eqb_refl. }
  exists db'.
  rewrite (CommentUpdateView_author _ _ _ _ _ _ _ _ Hu Hfind Hauthor).
  rewrite (CommentMixin_dispatch_found _ _ _ _ Hpost).
  unfold View_dispatch. rewrite Hmethod. unfold CommentUpdateView_post.
  rewrite (bind_ok _ _ _ _ (get_object_or_404_found _ _ _ _ Hfind)).
  rewrite Hvalid.
  unfold bind at 1. unfold CommentForm_save, execute. fold saved. fold db'.
  assert (Hurl : CommentMixin_get_success_url comment_id db'
                 = ok (url_post_detail (comment_post_id c)) db').
  { unfold CommentMixin_get_success_url.
    rewrite (bind_ok _ _ _ saved); [reflexivity | ].
    now apply get_object_or_404_found. }
  rewrite (bind_ok _ _ _ _ Hurl). unfold ret, ok.
  repeat split.
  - rewrite Hsaved. unfold saved. now rewrite Hpk.
  - intros k Hk. rewrite Hlookup.
    destruct (lookup_comment db k) as [q | ] eqn:Hq; [ | reflexivity].
    pose proof (find_comment_pk_eq _ _ _ Hq) as Hqk. simpl.
    destruct (comment_pk q =? comment_pk c) eqn:Heq; [ | reflexivity].
    apply Nat.eqb_eq in Heq. congruence.
  - unfold db'. simpl. apply length_map.
Qed.

Lemma CommentUpdateView_author_saves_witness :
  exists db',
    CommentUpdateView Site.CommentForm_is_valid
      (Site.request POST (AuthUser Site.alice)) 6 8 Site.hello Site.db2
    = ok (HttpResponseRedirect (url_post_detail 5)) db'
    /\ lookup_comment db' 8 = Some (mkComment 8 "Hello" 130%Z 1 5)
    /\ (forall k, k <> 8 -> lookup_comment db' k = lookup_comment Site.db2 k)
    /\ List.length (comments db') = List.length (comments Site.db2)
    /\ posts db' = posts Site.db2
    /\ users db' = users Site.db2.
Proof.
  apply (CommentUpdateView_author_saves Site.CommentForm_is_valid
           (Site.request POST (AuthUser Site.alice)) Site.alice 6 8
           Site.post6 Site.comment8 Site.hello Site.db2);
    reflexivity.
Defined.

(** X8. The comment views look up the post named in the URL only to
    check that it exists: when it does not, even the comment's author
    gets not-found, for every method, and nothing is written. *)
Theorem comment_views_need_the_url_post
    (CommentForm_is_valid : CommentFormData -> bool)
    (request : HttpRequest) (u : User) (post_id comment_id : nat)
    (c : Comment) (data : CommentFormData) (db : DB) :
  user request = AuthUser u ->
  lookup_comment db comment_id = Some c ->
  comment_author_id c = user_pk u ->
  lookup_post db post_id = None ->
  CommentUpdateView CommentForm_is_valid request post_id comment_id data db
  = failed Http404 db
  /\ CommentDeleteView request post_id comment_id db = failed Http404 db.
Proof.
  intros Hu Hfind Hauthor Hpost. split.
  - rewrite (CommentUpdateView_author _ _ _ _ _ _ _ _ Hu Hfind Hauthor).
    now apply CommentMixin_dispatch_missing.
  - rewrite (CommentDeleteView_author _ _ _ _ _ _ Hu Hfind Hauthor).
    now apply CommentMixin_dispatch_missing.
Qed.

Lemma comment_views_need_the_url_post_witness :
  CommentUpdateView Site.CommentForm_is_valid
    (Site.request POST (AuthUser Site.alice)) 42 8 Site.hello Site.db2
  = failed Http404 Site.db2
  /\ CommentDeleteView (Site.request POST (AuthUser Site.alice)) 42 8 Site.db2
     = failed Http404 Site.db2.
Proof.
  apply (comment_views_need_the_url_post Site.CommentForm_is_valid
           (Site.request POST (AuthUser Site.alice)) Site.alice 42 8
           Site.comment8 Site.hello Site.db2);
    reflexivity.
Defined.

(** X9. A POST to the comment delete view by the comment's author, under
    the URL of any post that exists, removes that comment and no other,
    leaves the posts alone, and redirects to the detail route of the
    comment's parent post. *)
Theorem CommentDeleteView_author_deletes
    (request : HttpRequest) (u : User) (post_id comment_id : nat)
    (p : Post) (c : Comment) (db : DB) :
  user request = AuthUser u ->
  lookup_comment db comment_id = Some c ->
  comment_author_id c = user_pk u ->
  lookup_post db post_id = Some p ->
  method request = POST ->
  exists db',
    CommentDeleteView request post_id comment_id db
    = ok (HttpResponseRedirect (url_post_detail (comment_post_id c))) db'
    /\ lookup_comment db' comment_id = None
    /\ (forall k, k <> comment_id ->
                  lookup_comment db' k = lookup_comment db k)
    /\ (forall x, In x (comments db') <->
                  In x (comments db) /\ comment_pk x <> comment_id)
    /\ posts db' = posts db
    /\ users db' = users db.
Proof.
  intros Hu Hfind Hauthor Hpost Hmethod.
  pose proof (find_comment_pk_eq _ _ _ Hfind) as Hpk.
  pose proof (get_object_or_404_found comments _ db c Hfind) as Hget.
  rewrite (CommentDeleteView_author _ _ _ _ _ _ Hu Hfind Hauthor).
  rewrite (CommentMixin_dispatch_found _ _ _ _ Hpost).
  unfold View_dispatch. rewrite Hmethod. unfold CommentDeleteView_post.
  rewrite (bind_ok _ _ _ _ Hget).
  assert (Hurl : CommentMixin_get_success_url comment_id db
                 = ok (url_post_detail (comment_post_id c)) db).
  { unfold CommentMixin_get_success_url. now rewrite (bind_ok _ _ _ _ Hget). }
  rewrite (bind_ok _ _ _ _ Hurl).
  unfold Comment_delete, bind, execute, ret, ok. rewrite Hpk.
  eexists. split; [reflexivity | ].
  unfold lookup_comment. simpl.
  split; [ | split; [ | split; [ | split; reflexivity]]].
  - apply (find_key_filter_same comment_pk).
  - intros k Hk. now apply (find_key_filter_other comment_pk).
  - intros x. rewrite filter_In, negb_true_iff, Nat.eqb_neq. reflexivity.
Qed.

Lemma CommentDeleteView_author_deletes_witness :
  exists db',
    CommentDeleteView (Site.request POST (AuthUser Site.alice)) 5 8 Site.db2
    = ok (HttpResponseRedirect (url_post_detail 5)) db'
    /\ lookup_comment db' 8 = None
    /\ (forall k, k <> 8 -> lookup_comment db' k = lookup_comment Site.db2 k)
    /\ (forall x, In x (comments db') <->
                  In x (comments Site.db2) /\ comment_pk x <> 8)
    /\ posts db' = posts Site.db2
    /\ users db' = users Site.db2.
Proof.
  apply (CommentDeleteView_author_deletes
           (Site.request POST (AuthUser Site.alice)) Site.alice 5 8
           Site.post5 Site.comment8 Site.db2);
    reflexivity.
Defined.

(* ================================================================== *)
(** ** Who can write through the edit and delete views *)

Lemma pk_eqb_author_inv (request : HttpRequest) (k : nat) :
  pk_eqb (Some k) (request_user_pk (user request)) = true ->
  request_user_pk (user request) = Some k
  /\ exists u, user request = AuthUser u /\ k = user_pk u.
Proof.
  destruct (user request) as [ | u]; simpl; [discriminate | ].
  intros Heq. apply Nat.eqb_eq in Heq. subst k. split; [reflexivity | ].
  now exists u.
Qed.

Lemma read_only_PostUpdateView_get post_id :
  read_only (PostUpdateView_get post_id).
Proof.
  unfold PostUpdateView_get.
  apply read_only_bind; [apply read_only_get_object_or_404 | ].
  intros p. apply read_only_ret.
Qed.

Lemma read_only_PostDeleteView_get post_id :
  read_only (PostDeleteView_get post_id).
Proof.
  unfold PostDeleteView_get.
  apply read_only_bind; [apply read_only_get_object_or_404 | ].
  intros p. apply read_only_ret.
Qed.

Lemma read_only_CommentUpdateView_get comment_id :
  read_only (CommentUpdateView_get comment_id).
Proof.
  unfold CommentUpdateView_get.
  apply read_only_bind; [apply read_only_get_object_or_404 | ].
  intros c. apply read_only_ret.
Qed.

Lemma read_only_CommentDeleteView_get comment_id :
  read_only (CommentDeleteView_get comment_id).
Proof.
  unfold CommentDeleteView_get.
  apply read_only_bind; [apply read_only_get_object_or_404 | ].
  intros c. apply read_only_ret.
Qed.

(** If the guarded chain writes, the guard let the request through, and
    it was the rest of the chain that wrote. *)
Lemma IsAuthorMixin_dispatch_write {A} `{Authored A}
    (table : DB -> list A) (lookup : A -> bool) request super_dispatch db :
  snd (IsAuthorMixin_dispatch (get_object_or_404 table lookup) request
         super_dispatch db) <> db ->
  snd (super_dispatch db) <> db
  /\ exists obj, find lookup (table db) = Some obj
                 /\ request_user_pk (user request) = Some (author_pk obj).
Proof.
  intros Hwrite.
  destruct (find lookup (table db)) as [obj | ] eqn:Hfind.
  - pose proof (get_object_or_404_found table lookup db obj Hfind) as Hobj.
    destruct (pk_eqb (Some (author_pk obj)) (request_user_pk (user request)))
      eqn:Hpk.
    + rewrite (IsAuthorMixin_dispatch_author _ _ _ _ _ Hobj Hpk) in Hwrite.
      apply pk_eqb_author_inv in Hpk. destruct Hpk as [Hpk _].
      split; [exact Hwrite | now exists obj].
    + rewrite (IsAuthorMixin_dispatch_other _ _ _ _ _ Hobj Hpk) in Hwrite.
      exfalso. now apply Hwrite.
  - pose proof (get_object_or_404_missing table lookup db Hfind) as Hobj.
    rewrite (IsAuthorMixin_dispatch_missing _ _ _ _ _ Hobj) in Hwrite.
    exfalso. now apply Hwrite.
Qed.

Lemma LoginRequiredMixin_dispatch_write request super_dispatch db :
  snd (LoginRequiredMixin_dispatch request super_dispatch db) <> db ->
  snd (super_dispatch db) <> db.
Proof.
  destruct (user request) as [ | u] eqn:Hu.
  - rewrite (LoginRequiredMixin_dispatch_anonymous _ _ _ Hu).
    intros Hwrite. exfalso. now apply Hwrite.
  - now rewrite (LoginRequiredMixin_dispatch_authenticated _ _ _ Hu).
Qed.

Lemma CommentMixin_dispatch_write post_id super_dispatch db :
  snd (CommentMixin_dispatch post_id super_dispatch db) <> db ->
  snd (super_dispatch db) <> db.
Proof.
  destruct (lookup_post db post_id) as [p | ] eqn:Hfind.
  - now rewrite (CommentMixin_dispatch_found _ _ _ _ Hfind).
  - rewrite (CommentMixin_dispatch_missing _ _ _ Hfind).
    intros Hwrite. exfalso. now apply Hwrite.
Qed.

Lemma View_dispatch_write request get post db :
  read_only get ->
  snd (View_dispatch request (Some get) (Some post) db) <> db ->
  method request = POST.
Proof.
  intros Hget. unfold View_dispatch.
  destruct (method request); intros Hwrite; trivial; exfalso; apply Hwrite.
  - apply Hget.
  - reflexivity.
Qed.

(** X10. The edit and delete views change the store only for the author
    of an object that exists, and never on a GET: if a request to any of
    the four views leaves a store different from the one it found, then
    its user is the author of the addressed post, or comment, and its
    method is not GET. *)
Theorem only_the_author_writes
    (PostForm_is_valid : DB -> PostFormData -> bool)
    (PostForm_post_clean : DB -> PostFormData -> Post -> Post)
    (CommentForm_is_valid : CommentFormData -> bool)
    (request : HttpRequest) (db : DB) :
  (forall post_id data,
      snd (PostUpdateView PostForm_is_valid PostForm_post_clean request
             post_id data db) <> db
      \/ snd (PostDeleteView request post_id db) <> db ->
      method request <> GET
      /\ exists p, lookup_post db post_id = Some p
                   /\ request_user_pk (user request) = Some (author_id p))
  /\
  (forall post_id comment_id data,
      snd (CommentUpdateView CommentForm_is_valid request post_id comment_id
             data db) <> db
      \/ snd (CommentDeleteView request post_id comment_id db) <> db ->
      method request <> GET
      /\ exists c, lookup_comment db comment_id = Some c
                   /\ request_user_pk (user request)
                      = Some (comment_author_id c)).
Proof.
  split.
  - intros post_id data Hwrite.
    assert (Hpost :
      exists get post,
        read_only get
        /\ snd (IsAuthorMixin_dispatch (Post_get_object post_id) request
                  (LoginRequiredMixin_dispatch request
                     (View_dispatch request (Some get) (Some post))) db)
           <> db).
    { destruct Hwrite as [Hwrite | Hwrite].
      - exists (PostUpdateView_get post_id),
               (PostUpdateView_post PostForm_is_valid PostForm_post_clean
                  post_id data).
        split; [apply read_only_PostUpdateView_get | exact Hwrite].
      - exists (PostDeleteView_get post_id),
               (PostDeleteView_post request post_id).
        split; [apply read_only_PostDeleteView_get | exact Hwrite]. }
    destruct Hpost as (get & post & Hget & Hchain).
    apply IsAuthorMixin_dispatch_write in Hchain.
    destruct Hchain as [Hrest Hauthor].
    apply LoginRequiredMixin_dispatch_write in Hrest.
    split; [ | exact Hauthor].
    rewrite (View_dispatch_write _ get post db Hget Hrest). discriminate.
  - intros post_id comment_id data Hwrite.
    assert (Hcomment :
      exists get post,
        read_only get
        /\ snd (LoginRequiredMixin_dispatch request
                  (IsAuthorMixin_dispatch (Comment_get_object comment_id)
                     request
                     (CommentMixin_dispatch post_id
                        (View_dispatch request (Some get) (Some post)))) db)
           <> db).
    { destruct Hwrite as [Hwrite | Hwrite].
      - exists (CommentUpdateView_get comment_id),
               (CommentUpdateView_post CommentForm_is_valid comment_id data).
        split; [apply read_only_CommentUpdateView_get | exact Hwrite].
      - exists (CommentDeleteView_get comment_id),
               (CommentDeleteView_post comment_id).
        split; [apply read_only_CommentDeleteView_get | exact Hwrite]. }
    destruct Hcomment as (get & post & Hget & Hchain).
    apply LoginRequiredMixin_dispatch_write in Hchain.
    apply IsAuthorMixin_dispatch_write in Hchain.
    destruct Hchain as [Hrest Hauthor].
    apply CommentMixin_dispatch_write in Hrest.
    split; [ | exact Hauthor].
    rewrite (View_dispatch_write _ get post db Hget Hrest). discriminate.
Qed.

Lemma only_the_author_writes_witness :
  method (Site.request POST (AuthUser Site.bob)) <> GET
  /\ exists p, lookup_post Site.db2 5 = Some p
               /\ request_user_pk (user (Site.request POST (AuthUser Site.bob)))
                  = Some (author_id p).
Proof.
  apply (proj1 (only_the_author_writes Site.PostForm_is_valid
                  Site.PostForm_post_clean
                  Site.CommentForm_is_valid
                  (Site.request POST (AuthUser Site.bob)) Site.db2)
           5 Site.retitle).
  right. vm_compute. discriminate.
Defined.

(* ================================================================== *)
(** ** Creating a comment: the other outcomes *)

(** X11. For a post that exists, the comment view sends an anonymous
    requester to the login route, shows an authenticated requester the
    empty form on GET, and shows the form again, bound to the submitted
    data, when a POST does not validate.  None of these stores
    anything. *)
Theorem CommentCreateView_without_valid_submission
    (CommentForm_is_valid : CommentFormData -> bool)
    (request : HttpRequest) (post_id : nat) (p : Post)
    (data : CommentFormData) (now : Z) (db : DB) :
  lookup_post db post_id = Some p ->
  (user request = AnonymousUser ->
   CommentCreateView CommentForm_is_valid request post_id data now db
   = ok (HttpResponseRedirect (url_login (path request))) db)
  /\
  (is_authenticated (user request) = true -> method request = GET ->
   CommentCreateView CommentForm_is_valid request post_id data now db
   = ok (TemplateResponse "blog/comment_form.html"
           (CommentFormContext None None)) db)
  /\
  (is_authenticated (user request) = true -> method request = POST ->
   CommentForm_is_valid data = false ->
   CommentCreateView CommentForm_is_valid request post_id data now db
   = ok (TemplateResponse "blog/comment_form.html"
           (CommentFormContext None (Some data))) db).
Proof.
  intros Hfind. unfold CommentCreateView.
  rewrite (bind_ok _ _ _ _ (get_object_or_404_found _ _ _ _ Hfind)).
  repeat split.
  - intros Hu. now apply LoginRequiredMixin_dispatch_anonymous.
  - intros Hauth Hmethod.
    unfold LoginRequiredMixin_dispatch, View_dispatch.
    now rewrite Hauth, Hmethod.
  - intros Hauth Hmethod Hinvalid.
    unfold LoginRequiredMixin_dispatch, View_dispatch, CommentCreateView_post.
    now rewrite Hauth, Hmethod, Hinvalid.
Qed.

Lemma CommentCreateView_without_valid_submission_witness :
  CommentCreateView Site.CommentForm_is_valid
    (Site.request POST AnonymousUser) 5 Site.hello Site.now Site.db
  = ok (HttpResponseRedirect (url_login "/")) Site.db
  /\
  CommentCreateView Site.CommentForm_is_valid
    (Site.request POST (AuthUser Site.alice)) 5 (mkCommentFormData "")
    Site.now Site.db
  = ok (TemplateResponse "blog/comment_form.html"
          (CommentFormContext None (Some (mkCommentFormData "")))) Site.db.
Proof.
  split.
  - apply (proj1 (CommentCreateView_without_valid_submission
                    Site.CommentForm_is_valid
                    (Site.request POST AnonymousUser) 5 Site.post5
                    Site.hello Site.now Site.db eq_refl)).
    reflexivity.
  - apply (proj2 (proj2 (CommentCreateView_without_valid_submission
                           Site.CommentForm_is_valid
                           (Site.request POST (AuthUser Site.alice)) 5
                           Site.post5 (mkCommentFormData "") Site.now
                           Site.db eq_refl)));
      reflexivity.
Defined.

(** X12. The comment view stores something only for a valid POST by an
    authenticated user to a post that exists; and it looks the post up
    before it checks the login, so for a post that does not exist every
    requester, the anonymous one included, gets not-found. *)
Theorem CommentCreateView_writes_only_for_valid_submission
    (CommentForm_is_valid : CommentFormData -> bool)
    (request : HttpRequest) (post_id : nat)
    (data : CommentFormData) (now : Z) (db : DB) :
  (snd (CommentCreateView CommentForm_is_valid request post_id data now db)
   <> db ->
   is_authenticated (user request) = true
   /\ method request = POST
   /\ CommentForm_is_valid data = true
   /\ exists p, lookup_post db post_id = Some p)
  /\
  (lookup_post db post_id = None ->
   CommentCreateView CommentForm_is_valid request post_id data now db
   = failed Http404 db).
Proof.
  split.
  - intros Hwrite. unfold CommentCreateView in Hwrite.
    destruct (lookup_post db post_id) as [p | ] eqn:Hfind.
    + rewrite (bind_ok _ _ _ _ (get_object_or_404_found _ _ _ _ Hfind))
        in Hwrite.
      apply LoginRequiredMixin_dispatch_write in Hwrite as Hrest.
      destruct (user request) as [ | u] eqn:Hu.
      { exfalso. apply Hwrite.
        now rewrite (LoginRequiredMixin_dispatch_anonymous _ _ _ Hu). }
      assert (Hmethod : method request = POST).
      { apply (View_dispatch_write _ _ _ _ (read_only_ret _) Hrest). }
      repeat split; trivial; [ | now exists p].
      unfold View_dispatch, CommentCreateView_post in Hrest.
      rewrite Hmethod in Hrest.
      destruct (CommentForm_is_valid data); [reflexivity | ].
      exfalso. now apply Hrest.
    + rewrite (bind_failed _ _ _ _ (get_object_or_404_missing _ _ _ Hfind))
        in Hwrite.
      exfalso. now apply Hwrite.
  - intros Hfind. unfold CommentCreateView.
    now rewrite (bind_failed _ _ _ _ (get_object_or_404_missing _ _ _ Hfind)).
Qed.

Lemma CommentCreateView_writes_only_for_valid_submission_witness :
  CommentCreateView Site.CommentForm_is_valid
    (Site.request POST AnonymousUser) 42 Site.hello Site.now Site.db
  = failed Http404 Site.db
  /\ is_authenticated (user (Site.request POST (AuthUser Site.alice))) = true.
Proof.
  split.
  - apply (proj2 (CommentCreateView_writes_only_for_valid_submission
                    Site.CommentForm_is_valid
                    (Site.request POST AnonymousUser) 42 Site.hello
                    Site.now Site.db)).
    reflexivity.
  - apply (proj1 (CommentCreateView_writes_only_for_valid_submission
                    Site.CommentForm_is_valid
                    (Site.request POST (AuthUser Site.alice)) 5 Site.hello
                    Site.now Site.db)).
    vm_compute. discriminate.
Defined.

(* ================================================================== *)
(** ** A new comment, seen through the reading views *)

Lemma PostDetailView_hidden_outcome q now db :
  (exists hidden, PostDetailView_hidden q now db = ok hidden db)
  \/ PostDetailView_hidden q now db = failed AttributeError db.
Proof.
  unfold PostDetailView_hidden, bind, query, ret, raise, ok, failed.
  destruct (negb (is_published q)); [left; now exists true | ].
  destruct (pub_date q >? now)%Z; [left; now exists true | ].
  destruct (post_category db q) as [c | ]; [left | now right].
  now exists (negb (category_is_published c)).
Qed.

(** The condition of the detail view does not look at the comments. *)
Lemma PostDetailView_hidden_with_comments q now db cs hidden :
  PostDetailView_hidden q now db = ok hidden db ->
  PostDetailView_hidden q now (with_comments db cs)
  = ok hidden (with_comments db cs).
Proof.
  unfold PostDetailView_hidden, bind, query, ret, raise, ok.
  destruct (negb (is_published q)); [congruence | ].
  destruct (pub_date q >? now)%Z; [congruence | ].
  change (post_category (with_comments db cs) q) with (post_category db q).
  destruct (post_category db q) as [c | ]; congruence.
Qed.

Lemma post_comments_after_comment db c q :
  post_comments (with_comments db (comments db ++ [c])) q
  = (post_comments db q
     ++ if comment_post_id c =? post_pk q then [c] else [])%list.
Proof.
  unfold post_comments. simpl. rewrite filter_app. simpl.
  now destruct (comment_post_id c =? post_pk q).
Qed.

Lemma PostDetailView_dispatch_after_comment viewer post_id now db c p cs :
  comment_post_id c = post_id ->
  PostDetailView_dispatch viewer post_id now db
  = ok (TemplateResponse "blog/detail.html" (DetailContext p cs)) db ->
  PostDetailView_dispatch viewer post_id now
    (with_comments db (comments db ++ [c]))
  = ok (TemplateResponse "blog/detail.html" (DetailContext p (cs ++ [c])))
       (with_comments db (comments db ++ [c])).
Proof.
  intros Hc Hshown.
  set (db' := with_comments db (comments db ++ [c])).
  destruct (lookup_post db post_id) as [q | ] eqn:Hfind.
  - assert (Hfind' : lookup_post db' post_id = Some q) by exact Hfind.
    destruct (PostDetailView_hidden_outcome q now db) as [[hidden Hrun] | Hrun].
    + pose proof (PostDetailView_hidden_with_comments q now db
                    (comments db ++ [c]) hidden Hrun) as Hrun'.
      rewrite (PostDetailView_dispatch_cases _ _ _ _ _ _ Hfind Hrun) in Hshown.
      rewrite (PostDetailView_dispatch_cases _ _ _ _ _ _ Hfind' Hrun').
      destruct (hidden && _); [discriminate | ].
      unfold View_dispatch in *. destruct (method viewer); try discriminate.
      rewrite (PostDetailView_get_found _ _ _ Hfind) in Hshown.
      rewrite (PostDetailView_get_found _ _ _ Hfind').
      unfold ok in *. inversion Hshown; subst p cs. clear Hshown.
      unfold db'. rewrite post_comments_after_comment.
      rewrite Hc, <- (find_pk_eq _ _ _ Hfind). now rewrite Nat.eqb_refl.
    + unfold PostDetailView_dispatch in Hshown.
      rewrite (bind_ok _ _ _ _ (get_object_or_404_found _ _ _ _ Hfind))
        in Hshown.
      rewrite (bind_failed _ _ _ _ Hrun) in Hshown. discriminate.
  - unfold PostDetailView_dispatch in Hshown.
    rewrite (bind_failed _ _ _ _ (get_object_or_404_missing _ _ _ Hfind))
      in Hshown.
    discriminate.
Qed.

(** X13. Creating a comment and then opening the post: whoever was shown
    the detail page of the post before a successful comment submission is
    shown, after it, the same post with the new comment added at the end
    of its comment list; the new comment has the submitted text and the
    submitting user as author. *)
Theorem new_comment_appears_on_detail_page
    (CommentForm_is_valid : CommentFormData -> bool)
    (request : HttpRequest) (u : User) (post_id : nat) (p : Post)
    (data : CommentFormData) (now : Z) (db : DB)
    (viewer : HttpRequest) (later : Z) (shown : Post) (cs : list Comment) :
  user request = AuthUser u ->
  method request = POST ->
  CommentForm_is_valid data = true ->
  lookup_post db post_id = Some p ->
  PostDetailView_dispatch viewer post_id later db
  = ok (TemplateResponse "blog/detail.html" (DetailContext shown cs)) db ->
  exists c db',
    CommentCreateView CommentForm_is_valid request post_id data now db
    = ok (HttpResponseRedirect (url_post_detail post_id)) db'
    /\ comment_text c = cf_text data
    /\ comment_author_id c = user_pk u
    /\ PostDetailView_dispatch viewer post_id later db'
       = ok (TemplateResponse "blog/detail.html"
               (DetailContext shown (cs ++ [c]))) db'.
Proof.
  intros Hu Hmethod Hvalid Hfind Hshown.
  pose proof (find_pk_eq _ _ _ Hfind) as Hpk.
  set (c := mkComment (next_comment_pk db) (cf_text data) now
              (user_pk u) post_id).
  exists c, (with_comments db (comments db ++ [c])).
  split; [ | split; [reflexivity | split; [reflexivity | ]]].
  - rewrite (CommentCreateView_valid_post _ _ _ _ _ _ _ _
               Hfind Hu Hmethod Hvalid).
    unfold c. now rewrite Hpk.
  - now apply PostDetailView_dispatch_after_comment.
Qed.

Lemma new_comment_appears_on_detail_page_witness :
  exists c db',
    CommentCreateView Site.CommentForm_is_valid
      (Site.request POST (AuthUser Site.alice)) 5 Site.hello Site.now Site.db
    = ok (HttpResponseRedirect (url_post_detail 5)) db'
    /\ comment_text c = "Hello"
    /\ comment_author_id c = 1
    /\ PostDetailView_dispatch (Site.request GET AnonymousUser) 5 Site.now db'
       = ok (TemplateResponse "blog/detail.html"
               (DetailContext Site.post5 [Site.comment7; c])) db'.
Proof.
  apply (new_comment_appears_on_detail_page Site.CommentForm_is_valid
           (Site.request POST (AuthUser Site.alice)) Site.alice 5 Site.post5
           Site.hello Site.now Site.db (Site.request GET AnonymousUser)
           Site.now Site.post5 [Site.comment7]);
    reflexivity.
Defined.

Lemma annotate_comment_count_after_comment db c qs :
  annotate_comment_count (with_comments db (comments db ++ [c])) qs
  = map (count_comment c) (annotate_comment_count db qs).
Proof.
  unfold annotate_comment_count. rewrite map_map. apply map_ext.
  intros q. unfold count_comment. simpl. f_equal.
  rewrite post_comments_after_comment, length_app.
  now destruct (comment_post_id c =? post_pk q).
Qed.

Lemma insert_by_pub_date_count_comment c row rows :
  insert_by_pub_date (count_comment c row) (map (count_comment c) rows)
  = map (count_comment c) (insert_by_pub_date row rows).
Proof.
  induction rows as [ | r rest IH]; simpl; [reflexivity | ].
  destruct (pub_date (fst r) <=? pub_date (fst row))%Z; simpl;
    [reflexivity | now rewrite IH].
Qed.

Lemma order_by_pub_date_desc_count_comment c rows :
  order_by_pub_date_desc (map (count_comment c) rows)
  = map (count_comment c) (order_by_pub_date_desc rows).
Proof.
  induction rows as [ | r rest IH]; simpl; [reflexivity | ].
  rewrite IH. apply insert_by_pub_date_count_comment.
Qed.

Lemma filter_map_count_comment (f : Post -> bool) c rows :
  filter (fun row => f (fst row)) (map (count_comment c) rows)
  = map (count_comment c) (filter (fun row => f (fst row)) rows).
Proof.
  induction rows as [ | r rest IH]; simpl; [reflexivity | ].
  destruct (f (fst r)); simpl; now rewrite IH.
Qed.

Lemma PostListView_get_queryset_after_comment now db c :
  PostListView_get_queryset now (with_comments db (comments db ++ [c]))
  = map (count_comment c) (PostListView_get_queryset now db).
Proof.
  unfold PostListView_get_queryset, PostListMixin_get_queryset.
  rewrite annotate_comment_count_after_comment.
  rewrite order_by_pub_date_desc_count_comment.
  apply (filter_map_count_comment
           (fun q => (pub_date q <? now)%Z && is_published q
                     && category__is_published db q)).
Qed.

(** X14. Creating a comment and then opening the home feed: after a
    successful submission the feed lists the same posts in the same
    order; the comment count of the commented post is one higher and
    every other count is what it was. *)
Theorem new_comment_is_counted_in_feed
    (CommentForm_is_valid : CommentFormData -> bool)
    (request : HttpRequest) (u : User) (post_id : nat) (p : Post)
    (data : CommentFormData) (now later : Z) (db : DB) :
  user request = AuthUser u ->
  method request = POST ->
  CommentForm_is_valid data = true ->
  lookup_post db post_id = Some p ->
  exists db',
    CommentCreateView CommentForm_is_valid request post_id data now db
    = ok (HttpResponseRedirect (url_post_detail post_id)) db'
    /\ map fst (PostListView_get_queryset later db')
       = map fst (PostListView_get_queryset later db)
    /\ (forall q n,
           In (q, n) (PostListView_get_queryset later db) ->
           In (q, if post_pk q =? post_id then S n else n)
              (PostListView_get_queryset later db')).
Proof.
  intros Hu Hmethod Hvalid Hfind.
  pose proof (find_pk_eq _ _ _ Hfind) as Hpk.
  set (c := mkComment (next_comment_pk db) (cf_text data) now
              (user_pk u) post_id).
  exists (with_comments db (comments db ++ [c])).
  rewrite PostListView_get_queryset_after_comment.
  repeat split.
  - rewrite (CommentCreateView_valid_post _ _ _ _ _ _ _ _
               Hfind Hu Hmethod Hvalid).
    unfold c. now rewrite Hpk.
  - rewrite map_map. apply map_ext. reflexivity.
  - intros q n Hin. apply in_map_iff. exists (q, n). split; [ | exact Hin].
    unfold count_comment. simpl. f_equal. rewrite (Nat.eqb_sym post_id).
    destruct (post_pk q =? post_id); lia.
Qed.

Lemma new_comment_is_counted_in_feed_witness :
  exists db',
    CommentCreateView Site.CommentForm_is_valid
      (Site.request POST (AuthUser Site.alice)) 5 Site.hello Site.now Site.db
    = ok (HttpResponseRedirect (url_post_detail 5)) db'
    /\ map fst (PostListView_get_queryset 300%Z db')
       = map fst (PostListView_get_queryset 300%Z Site.db)
    /\ (forall q n,
           In (q, n) (PostListView_get_queryset 300%Z Site.db) ->
           In (q, if post_pk q =? 5 then S n else n)
              (PostListView_get_queryset 300%Z db')).
Proof.
  apply (new_comment_is_counted_in_feed Site.CommentForm_is_valid
           (Site.request POST (AuthUser Site.alice)) Site.alice 5 Site.post5
           Site.hello Site.now 300%Z Site.db);
    reflexivity.
Defined.

(* ================================================================== *)
(** ** A deleted post, seen through the reading views *)

Lemma PostDeleteView_author_run request u post_id p db :
  user request = AuthUser u ->
  lookup_post db post_id = Some p ->
  author_id p = user_pk u ->
  method request = POST ->
  PostDeleteView request post_id db
  = ok (HttpResponseRedirect (url_profile (username u)))
       (mkDB (users db) (categories db) (locations db)
          (filter (fun q => negb (post_pk q =? post_id)) (posts db))
          (filter (fun c => negb (comment_post_id c =? post_id))
                  (comments db))).
Proof.
  intros Hu Hfind Hauthor Hmethod.
  rewrite (PostDeleteView_author _ _ _ _ _ Hu Hfind Hauthor).
  unfold View_dispatch. rewrite Hmethod. unfold PostDeleteView_post.
  rewrite (bind_ok _ _ _ _ (get_object_or_404_found _ _ _ _ Hfind)).
  unfold Post_delete, bind, execute, ret, ok.
  now rewrite Hu, (find_pk_eq _ _ _ Hfind).
Qed.

(** X15. Deleting a post and then asking for it: once the author has
    deleted a post, its detail page answers not-found to every
    requester, the author included, and neither the home feed nor any
    profile feed lists a post with that key; what the home feed does
    list was listed before the deletion. *)
Theorem deleted_post_is_gone
    (request : HttpRequest) (u : User) (post_id : nat) (p : Post) (db : DB) :
  user request = AuthUser u ->
  lookup_post db post_id = Some p ->
  author_id p = user_pk u ->
  method request = POST ->
  exists db',
    PostDeleteView request post_id db
    = ok (HttpResponseRedirect (url_profile (username u))) db'
    /\ (forall viewer later,
           PostDetailView_dispatch viewer post_id later db'
           = failed Http404 db')
    /\ (forall later q,
           In q (map fst (PostListView_get_queryset later db')) ->
           post_pk q <> post_id
           /\ In q (map fst (PostListView_get_queryset later db)))
    /\ (forall viewer name later q,
           In q (map fst (ProfileListView_get_queryset viewer name later db'))
           -> post_pk q <> post_id).
Proof.
  intros Hu Hfind Hauthor Hmethod.
  eexists. split; [now apply (PostDeleteView_author_run _ u _ p) | ].
  match goal with |- context [PostDetailView_dispatch _ _ _ ?d] =>
    set (db' := d) end.
  assert (Hkept : forall q, In q (posts db') ->
                            In q (posts db) /\ post_pk q <> post_id).
  { intros q Hq. unfold db' in Hq. simpl in Hq.
    apply filter_In in Hq. destruct Hq as [Hq Hne]. split; [exact Hq | ].
    apply negb_true_iff in Hne. now apply Nat.eqb_neq. }
  split; [ | split].
  - intros viewer later. unfold PostDetailView_dispatch.
    apply bind_failed, get_object_or_404_missing.
    unfold db'. simpl. apply (find_key_filter_same post_pk).
  - intros later q Hin.
    apply In_map_fst_PostListView_get_queryset in Hin.
    destruct Hin as (Hq & Hrest). apply Hkept in Hq.
    split; [tauto | ].
    apply In_map_fst_PostListView_get_queryset. tauto.
  - intros viewer name later q Hq.
    apply In_map_fst_ProfileListView_get_queryset in Hq.
    destruct Hq as [Hq _]. now apply Hkept in Hq.
Qed.

Lemma deleted_post_is_gone_witness :
  exists db',
    PostDeleteView (Site.request POST (AuthUser Site.bob)) 5 Site.db2
    = ok (HttpResponseRedirect (url_profile "bob")) db'
    /\ (forall viewer later,
           PostDetailView_dispatch viewer 5 later db' = failed Http404 db')
    /\ (forall later q,
           In q (map fst (PostListView_get_queryset later db')) ->
           post_pk q <> 5
           /\ In q (map fst (PostListView_get_queryset later Site.db2)))
    /\ (forall viewer name later q,
           In q (map fst (ProfileListView_get_queryset viewer name later db'))
           -> post_pk q <> 5).
Proof.
  apply (deleted_post_is_gone (Site.request POST (AuthUser Site.bob))
           Site.bob 5 Site.post5 Site.db2);
    reflexivity.
Defined.

(* ================================================================== *)
(** ** The feeds: gates, order and page edges *)

Lemma paginate_queryset_outcome {A} (qs : list A) request db :
  (exists page_obj, paginate_queryset qs paginate_by request db
                    = ok page_obj db)
  \/ paginate_queryset qs paginate_by request db = failed Http404 db.
Proof.
  assert (Hpage : forall n,
    (exists page_obj, Paginator_page qs paginate_by n db = ok page_obj db)
    \/ Paginator_page qs paginate_by n db = failed Http404 db).
  { intros n.
    destruct (Z_lt_le_dec n 1) as [Hlo | Hlo];
      [right; apply Paginator_page_out_of_range; lia | ].
    destruct (Z_lt_le_dec (Z.of_nat (num_pages qs paginate_by)) n)
      as [Hhi | Hhi];
      [right; apply Paginator_page_out_of_range; lia | ].
    left. exists (nth_page qs (Z.to_nat n)).
    rewrite <- (Z2Nat.id n) at 1 by lia.
    apply Paginator_page_in_range. lia. }
  unfold paginate_queryset. destruct (page request); trivial. now right.
Qed.

Lemma paginate_queryset_first_page {A} (qs : list A) request db :
  page request = page_absent ->
  paginate_queryset qs paginate_by request db = ok (nth_page qs 1) db.
Proof.
  intros Hpage. unfold paginate_queryset. rewrite Hpage.
  apply (Paginator_page_in_range qs 1). split; [lia | apply num_pages_pos].
Qed.

Lemma ListView_get_first_page request get_queryset template_name extra db :
  page request = page_absent ->
  ListView_get request get_queryset template_name extra db
  = bind (extra (nth_page (get_queryset db) 1))
         (fun context => ret (TemplateResponse template_name context)) db.
Proof.
  intros Hpage. unfold ListView_get.
  unfold bind at 1. unfold query at 1.
  now rewrite (bind_ok _ _ _ _ (paginate_queryset_first_page _ _ _ Hpage)).
Qed.

(** X16. The category feed is served only for a published category:
    when every category with the requested slug is unpublished, and so
    also when there is none, the answer is not-found; when a published
    category has the slug, a GET without a page number shows the first
    page of that category's feed together with the category. *)
Theorem CategoryListlView_needs_published_category
    (request : HttpRequest) (category_slug : string) (now : Z) (db : DB) :
  ((forall c, In c (categories db) -> slug c = category_slug ->
              category_is_published c = false) ->
   CategoryListlView request category_slug now db = failed Http404 db)
  /\
  (forall c,
      find (fun c => String.eqb (slug c) category_slug)
           (filter category_is_published (categories db)) = Some c ->
      method request = GET ->
      page request = page_absent ->
      category_is_published c = true
      /\ slug c = category_slug
      /\ CategoryListlView request category_slug now db
         = ok (TemplateResponse "blog/category.html"
                 (ListContext
                    (nth_page (CategoryListlView_get_queryset c now db) 1)
                    (Some c) None)) db).
Proof.
  split.
  - intros Hnone. unfold CategoryListlView.
    apply bind_failed, get_object_or_404_missing.
    destruct (find _ _) as [c | ] eqn:Hfind; [exfalso | reflexivity].
    apply find_some in Hfind. destruct Hfind as [Hin Hslug].
    apply filter_In in Hin. destruct Hin as [Hin Hpub].
    apply String.eqb_eq in Hslug.
    specialize (Hnone c Hin Hslug). congruence.
  - intros c Hfind Hmethod Hpage.
    pose proof (find_some _ _ Hfind) as [Hin Hslug].
    apply filter_In in Hin. apply String.eqb_eq in Hslug.
    repeat split; [tauto | exact Hslug | ].
    unfold CategoryListlView.
    rewrite (bind_ok _ _ _ c);
      [ | exact (get_object_or_404_found
                   (fun db => filter category_is_published (categories db))
                   _ db c Hfind)].
    unfold View_dispatch. rewrite Hmethod.
    now rewrite (ListView_get_first_page _ _ _ _ _ Hpage).
Qed.

Lemma CategoryListlView_needs_published_category_witness :
  CategoryListlView (Site.request GET AnonymousUser) "archive" Site.now Site.db
  = failed Http404 Site.db
  /\
  CategoryListlView (Site.request GET AnonymousUser) "travel" Site.now Site.db
  = ok (TemplateResponse "blog/category.html"
          (ListContext [(Site.post5, 1)] (Some Site.travel) None)) Site.db.
Proof.
  split.
  - apply (proj1 (CategoryListlView_needs_published_category
                    (Site.request GET AnonymousUser) "archive" Site.now
                    Site.db)).
    intros c [<- | [<- | []]]; [discriminate | reflexivity].
  - apply (proj2 (CategoryListlView_needs_published_category
                    (Site.request GET AnonymousUser) "travel" Site.now
                    Site.db) Site.travel);
      reflexivity.
Defined.

(** X17. The category feed and the profile feed are ordered like the
    home feed, most recent first, and carry the same comment counts; the
    category feed lists nothing the home feed does not list. *)
Theorem scoped_feeds_ordered_and_counted
    (request : HttpRequest) (category : Category) (name : string)
    (now : Z) (db : DB) :
  StronglySorted pub_date_desc (CategoryListlView_get_queryset category now db)
  /\ StronglySorted pub_date_desc
       (ProfileListView_get_queryset request name now db)
  /\ (forall p n,
         In (p, n) (CategoryListlView_get_queryset category now db)
         \/ In (p, n) (ProfileListView_get_queryset request name now db) ->
         n = List.length (post_comments db p))
  /\ incl (CategoryListlView_get_queryset category now db)
          (PostListView_get_queryset now db).
Proof.
  split; [ | split; [ | split]].
  - unfold CategoryListlView_get_queryset.
    apply StronglySorted_filter, PostListView_get_queryset_sorted.
  - rewrite ProfileListView_get_queryset_unfiltered.
    unfold PostListMixin_get_queryset.
    apply StronglySorted_filter, order_by_pub_date_desc_sorted.
  - intros p n [Hin | Hin].
    + unfold CategoryListlView_get_queryset, PostListView_get_queryset in Hin.
      apply filter_In in Hin. destruct Hin as [Hin _].
      apply filter_In in Hin. destruct Hin as [Hin _].
      now apply In_PostListMixin_get_queryset in Hin.
    + rewrite ProfileListView_get_queryset_unfiltered in Hin.
      apply filter_In in Hin. destruct Hin as [Hin _].
      now apply In_PostListMixin_get_queryset in Hin.
  - intros row Hin. unfold CategoryListlView_get_queryset in Hin.
    now apply filter_In in Hin.
Qed.

(** X18. The profile page exists only for a user that exists: a GET for
    a username nobody has is answered not-found, whatever page is asked
    for; for an existing user a GET without a page number shows the
    first page of the profile feed together with that user. *)
Theorem ProfileListView_needs_user
    (request : HttpRequest) (name : string) (now : Z) (db : DB) :
  method request = GET ->
  (find (fun u => String.eqb (username u) name) (users db) = None ->
   ProfileListView request name now db = failed Http404 db)
  /\
  (forall u,
      find (fun u => String.eqb (username u) name) (users db) = Some u ->
      page request = page_absent ->
      ProfileListView request name now db
      = ok (TemplateResponse "blog/profile.html"
              (ListContext
                 (nth_page (ProfileListView_get_queryset request name now db)
                    1)
                 None (Some u))) db).
Proof.
  intros Hmethod. unfold ProfileListView, View_dispatch. rewrite Hmethod.
  split.
  - intros Hfind. unfold ListView_get.
    unfold bind at 1. unfold query at 1.
    destruct (paginate_queryset_outcome
                (ProfileListView_get_queryset request name now db) request db)
      as [[page_obj Hpage] | Hpage].
    + rewrite (bind_ok _ _ _ _ Hpage).
      apply bind_failed, bind_failed.
      now apply get_object_or_404_missing.
    + now apply bind_failed.
  - intros u Hfind Hpage.
    rewrite (ListView_get_first_page _ _ _ _ _ Hpage).
    unfold bind at 1.
    now rewrite (bind_ok _ _ _ _ (get_object_or_404_found _ _ _ _ Hfind)).
Qed.

Lemma ProfileListView_needs_user_witness :
  ProfileListView (Site.request GET AnonymousUser) "carol" Site.now Site.db
  = failed Http404 Site.db
  /\
  ProfileListView (Site.request GET (AuthUser Site.alice)) "alice"
    Site.now Site.db
  = ok (TemplateResponse "blog/profile.html"
          (ListContext [(Site.post7, 0)] None (Some Site.alice))) Site.db.
Proof.
  split.
  - apply (proj1 (ProfileListView_needs_user
                    (Site.request GET AnonymousUser) "carol" Site.now
                    Site.db eq_refl)).
    reflexivity.
  - apply (proj2 (ProfileListView_needs_user
                    (Site.request GET (AuthUser Site.alice)) "alice"
                    Site.now Site.db eq_refl) Site.alice);
      reflexivity.
Defined.

(** X19. Whoever asks, the profile feed of a username lists exactly the
    stored posts whose author has that username: nothing of another
    author, and every post of this one, drafts and posts dated in the
    future included. *)
Theorem ProfileListView_lists_the_authors_posts
    (request : HttpRequest) (name : string) (now : Z) (db : DB) (p : Post) :
  In p (map fst (ProfileListView_get_queryset request name now db))
  <-> In p (posts db)
      /\ exists u, post_author db p = Some u /\ username u = name.
Proof.
  rewrite In_map_fst_ProfileListView_get_queryset.
  unfold author__username.
  destruct (post_author db p) as [u | ].
  - rewrite String.eqb_eq. split.
    + intros [Hp Hname]. split; [exact Hp | now exists u].
    + intros [Hp (u' & Hu' & Hname)]. inversion Hu'; subst. now split.
  - split.
    + intros [_ Hfalse]. discriminate.
    + intros [_ (u' & Hu' & _)]. discriminate.
Qed.

(** X20. The edges of the home feed's pagination: a page number below
    one or beyond the last page, and a page parameter that is not a
    number, are answered not-found; [last] gives the last page; an
    empty site still has a first page, with nothing on it; and the feed
    has no handler for POST or PATCH, which are answered 405. *)
Theorem home_feed_page_edges (ru : RequestUser) (path : string)
    (now : Z) (db : DB) :
  let feed := PostListView_get_queryset now db in
  let pages := num_pages feed paginate_by in
  (forall n, (n < 1 \/ Z.of_nat pages < n)%Z ->
             PostListView (mkRequest GET ru path (page_number n)) now db
             = failed Http404 db)
  /\ PostListView (mkRequest GET ru path page_garbage) now db
     = failed Http404 db
  /\ PostListView (mkRequest GET ru path page_last) now db
     = ok (TemplateResponse "blog/index.html"
             (ListContext (nth_page feed pages) None None)) db
  /\ (posts db = [] ->
      PostListView (mkRequest GET ru path page_absent) now db
      = ok (TemplateResponse "blog/index.html" (ListContext [] None None)) db)
  /\ (forall pg,
         PostListView (mkRequest POST ru path pg) now db
         = ok HttpResponseNotAllowed db
         /\ PostListView (mkRequest PATCH ru path pg) now db
            = ok HttpResponseNotAllowed db).
Proof.
  intros feed pages. split; [ | split; [ | split; [ | split]]].
  - intros n Hout. rewrite PostListView_GET.
    apply bind_failed. simpl. now apply Paginator_page_out_of_range.
  - rewrite PostListView_GET. now apply bind_failed.
  - rewrite PostListView_GET.
    rewrite (bind_ok _ _ _ (nth_page feed pages)); [reflexivity | ].
    simpl. apply Paginator_page_in_range. split; [apply num_pages_pos | lia].
  - intros Hempty. rewrite PostListView_GET.
    rewrite (bind_ok _ _ _ (nth_page feed 1)).
    + unfold feed, PostListView_get_queryset, PostListMixin_get_queryset.
      now rewrite Hempty.
    + simpl. apply (Paginator_page_in_range feed 1).
      split; [lia | apply num_pages_pos].
  - intros pg. split; reflexivity.
Qed.

Lemma home_feed_page_edges_witness :
  PostListView (mkRequest GET AnonymousUser "/" (page_number 2))
    Site.now Site.db
  = failed Http404 Site.db
  /\ PostListView (mkRequest GET AnonymousUser "/" page_absent) Site.now
       (mkDB [Site.alice] [] [] [] [])
     = ok (TemplateResponse "blog/index.html" (ListContext [] None None))
          (mkDB [Site.alice] [] [] [] [])
  /\ PostListView (mkRequest POST AnonymousUser "/" page_absent)
       Site.now Site.db
     = ok HttpResponseNotAllowed Site.db.
Proof.
  pose proof (home_feed_page_edges AnonymousUser "/" Site.now Site.db)
    as Hsite.
  pose proof (home_feed_page_edges AnonymousUser "/" Site.now
                (mkDB [Site.alice] [] [] [] [])) as Hempty.
  cbv zeta in Hsite, Hempty.
  destruct Hsite as (Hout & _ & _ & _ & Hmethod).
  destruct Hempty as (_ & _ & _ & Hnone & _).
  split; [ | split].
  - apply (Hout 2%Z). right. vm_compute. reflexivity.
  - apply Hnone. reflexivity.
  - apply (Hmethod page_absent).
Defined.

(* ================================================================== *)
(** ** Creating a post *)

Lemma PostCreateView_valid_post
    PostForm_is_valid create_page request u data db :
  user request = AuthUser u ->
  method request = POST ->
  PostForm_is_valid db data = true ->
  PostCreateView PostForm_is_valid create_page request data db
  = ok (HttpResponseRedirect (url_profile (username u)))
       (with_posts db
          (posts db ++
           [mkPost (next_post_pk db) (pf_title data) (pf_text data)
                   (pf_pub_date data) (pf_is_published data) (user_pk u)
                   (pf_category data) (pf_location data)])).
Proof.
  intros Hu Hmethod Hvalid. unfold PostCreateView.
  rewrite (LoginRequiredMixin_dispatch_authenticated _ _ _ Hu).
  unfold View_dispatch. rewrite Hmethod.
  unfold PostCreateView_post, bind, query. rewrite Hvalid.
  unfold PostCreateView_form_valid. now rewrite Hu.
Qed.



(** X22. The create view stores nothing without a valid submission by
    an authenticated user: an anonymous requester is sent to the login
    route whatever the method, and a POST that does not validate gets
    the form back, bound to the submitted data. *)
Theorem PostCreateView_without_valid_submission
    (PostForm_is_valid : DB -> PostFormData -> bool)
    (create_page : option PostFormData -> Response)
    (request : HttpRequest) (data : PostFormData) (db : DB) :
  (user request = AnonymousUser ->
   PostCreateView PostForm_is_valid create_page request data db
   = ok (HttpResponseRedirect (url_login (path request))) db)
  /\
  (is_authenticated (user request) = true -> method request = GET ->
   PostCreateView PostForm_is_valid create_page request data db
   = ok (create_page None) db)
  /\
  (is_authenticated (user request) = true -> method request = POST ->
   PostForm_is_valid db data = false ->
   PostCreateView PostForm_is_valid create_page request data db
   = ok (create_page (Some data)) db).
Proof.
  unfold PostCreateView. repeat split.
  - intros Hu. now apply LoginRequiredMixin_dispatch_anonymous.
  - intros Hauth Hmethod.
    unfold LoginRequiredMixin_dispatch, View_dispatch.
    now rewrite Hauth, Hmethod.
  - intros Hauth Hmethod Hinvalid.
    unfold LoginRequiredMixin_dispatch, View_dispatch.
    rewrite Hauth, Hmethod. simpl.
    unfold PostCreateView_post, bind, query. now rewrite Hinvalid.
Qed.

Lemma PostCreateView_without_valid_submission_witness :
  PostCreateView Site.PostForm_is_valid Site.create_page
    (Site.request POST AnonymousUser) Site.retitle Site.db
  = ok (HttpResponseRedirect (url_login "/")) Site.db
  /\
  PostCreateView Site.PostForm_is_valid Site.create_page
    (Site.request POST (AuthUser Site.alice))
    (mkPostFormData "" "Body only." 0%Z true None None) Site.db
  = ok (Site.create_page
          (Some (mkPostFormData "" "Body only." 0%Z true None None)))
       Site.db.
Proof.
  split.
  - apply (proj1 (PostCreateView_without_valid_submission
                    Site.PostForm_is_valid Site.create_page
                    (Site.request POST AnonymousUser) Site.retitle Site.db)).
    reflexivity.
  - apply (proj2 (proj2 (PostCreateView_without_valid_submission
                           Site.PostForm_is_valid Site.create_page
                           (Site.request POST (AuthUser Site.alice))
                           (mkPostFormData "" "Body only." 0%Z true None None)
                           Site.db)));
      reflexivity.
Defined.

(** X23. Creating a post and then following the redirect: when the
    requester is a stored user, the profile feed of that user, the
    target of the redirect, lists the new post, be it a draft or dated
    in the future, next to everything it listed before. *)
Theorem new_post_appears_on_own_profile
    (PostForm_is_valid : DB -> PostFormData -> bool)
    (create_page : option PostFormData -> Response)
    (request : HttpRequest) (u : User) (data : PostFormData) (db : DB)
    (viewer : HttpRequest) (later : Z) :
  user request = AuthUser u ->
  method request = POST ->
  PostForm_is_valid db data = true ->
  find (fun x => user_pk x =? user_pk u) (users db) = Some u ->
  exists q db',
    PostCreateView PostForm_is_valid create_page request data db
    = ok (HttpResponseRedirect (url_profile (username u))) db'
    /\ is_published q = pf_is_published data
    /\ pub_date q = pf_pub_date data
    /\ In q (map fst (ProfileListView_get_queryset viewer (username u)
                        later db'))
    /\ (forall p,
           In p (map fst (ProfileListView_get_queryset viewer (username u)
                            later db)) ->
           In p (map fst (ProfileListView_get_queryset viewer (username u)
                            later db'))).
Proof.
  intros Hu Hmethod Hvalid Hstored.
  set (q := mkPost (next_post_pk db) (pf_title data) (pf_text data)
              (pf_pub_date data) (pf_is_published data) (user_pk u)
              (pf_category data) (pf_location data)).
  exists q, (with_posts db (posts db ++ [q])).
  split; [now apply PostCreateView_valid_post | ].
  split; [reflexivity | split; [reflexivity | split]].
  - apply In_map_fst_ProfileListView_get_queryset. split.
    + simpl. apply in_or_app. right. now left.
    + unfold author__username, post_author. simpl. rewrite Hstored.
      apply String.eqb_refl.
  - intros p Hp. apply In_map_fst_ProfileListView_get_queryset in Hp.
    apply In_map_fst_ProfileListView_get_queryset.
    destruct Hp as [Hp Hauthor]. split; [ | exact Hauthor].
    simpl. apply in_or_app. now left.
Qed.

Lemma new_post_appears_on_own_profile_witness :
  exists q db',
    PostCreateView Site.PostForm_is_valid Site.create_page
      (Site.request POST (AuthUser Site.alice))
      (mkPostFormData "Draft" "Later." 900%Z false None None) Site.db
    = ok (HttpResponseRedirect (url_profile "alice")) db'
    /\ is_published q = false
    /\ pub_date q = 900%Z
    /\ In q (map fst (ProfileListView_get_queryset
                        (Site.request GET (AuthUser Site.alice)) "alice"
                        Site.now db'))
    /\ (forall p,
           In p (map fst (ProfileListView_get_queryset
                            (Site.request GET (AuthUser Site.alice)) "alice"
                            Site.now Site.db)) ->
           In p (map fst (ProfileListView_get_queryset
                            (Site.request GET (AuthUser Site.alice)) "alice"
                            Site.now db'))).
Proof.
  apply (new_post_appears_on_own_profile Site.PostForm_is_valid
           Site.create_page (Site.request POST (AuthUser Site.alice))
           Site.alice (mkPostFormData "Draft" "Later." 900%Z false None None)
           Site.db (Site.request GET (AuthUser Site.alice)) Site.now);
    reflexivity.
Defined.
